(** * Microclimate sensor analysis: the combine / filter / aggregate pipeline

    A shallow embedding of [src/exploration/combine_raw_data.py]
    ([save_aggregated_data] and [combine_fmi_data]) together with the
    properties its specification states about it.

    Conventions of the embedding.
    - An instant is an integer number of nanoseconds (the [i8] value pandas
      stores): since the epoch in UTC for a timezone-aware value, of the wall
      clock for a naive one.  The integers are unbounded: the 64-bit range of
      a pandas timestamp is outside the model.
    - A timezone is a fixed offset east of UTC, in nanoseconds; [UTC] is 0.
      Zones with daylight saving are outside the model.
    - A floating value is a rational; a null cell (NaN) is [None].  Rounding
      is outside the model.
    - A pandas frame is a record holding its column names, the timezone of
      its index and its rows in order.
    - [pd.to_datetime] and the sorting kernel behind [sort_index] are library
      code; they are taken as parameters, with what the library promises. *)

From stdpp Require Import base decidable option list strings gmap sorting.
From Stdlib Require Import ZArith QArith Qreduction Lia.

Local Open Scope Z_scope.

(** ** Instants, timezones and [pd.Timestamp] *)

Definition NANOS_PER_HOUR : Z := 3600000000000.
Definition NANOS_PER_DAY : Z := 24 * NANOS_PER_HOUR.

Definition tzinfo : Type := Z.
Definition UTC : tzinfo := 0.

(** [pd.Timestamp], with the missing value [pd.NaT]. *)
Inductive Timestamp : Type :=
  | NaT
  | Stamp (value : Z) (tz : option tzinfo).

Global Instance Timestamp_eq_dec : EqDecision Timestamp.
Proof. solve_decision. Defined.

(** [ts.tz]; [NaT.tz] is [None]. *)
Definition ts_tz (ts : Timestamp) : option tzinfo :=
  match ts with
  | NaT => None
  | Stamp _ tz => tz
  end.

(** [ts + pd.Timedelta(days=n)]: an absolute duration; [NaT] absorbs. *)
Definition add_days (ts : Timestamp) (n : Z) : Timestamp :=
  match ts with
  | NaT => NaT
  | Stamp v tz => Stamp (v + n * NANOS_PER_DAY) tz
  end.

(** [ts.tz_localize(tz)] on a naive value: the wall clock is read in [tz]. *)
Definition tz_localize (tz : tzinfo) (ts : Timestamp) : Timestamp :=
  match ts with
  | NaT => NaT
  | Stamp v _ => Stamp (v - tz) (Some tz)
  end.

(** [ts.tz_convert(tz)] on an aware value: same instant, other zone. *)
Definition tz_convert (tz : tzinfo) (ts : Timestamp) : Timestamp :=
  match ts with
  | NaT => NaT
  | Stamp v _ => Stamp v (Some tz)
  end.

(** [ts.normalize()]: midnight of the same day in the value's own zone. *)
Definition normalize (tz : option tzinfo) (t : Z) : Z :=
  let off := default 0 tz in
  (t + off) `div` NANOS_PER_DAY * NANOS_PER_DAY - off.

(** [index >= ts] raises [TypeError] when exactly one side is timezone-aware;
    [NaT] compares with everything. *)
Definition comparable (index_tz : option tzinfo) (ts : Timestamp) : bool :=
  match ts with
  | NaT => true
  | Stamp _ tz => bool_decide (is_Some index_tz ↔ is_Some tz)
  end.

(** One element of [index >= ts]; every comparison with [NaT] is false. *)
Definition index_ge (t : Z) (ts : Timestamp) : bool :=
  match ts with
  | NaT => false
  | Stamp v _ => bool_decide (v ≤ t)
  end.

(** ** Frames *)

(** A row of the sensor frame: the index value, the ["dev-id"] cell and the
    cells of the numeric columns, in column order.  The aggregated frame has
    rows of the same shape, its index holding the bucket label. *)
Record Reading : Type := mkReading {
  time : Z;
  dev_id : string;
  cells : list (option Q)
}.

Record DataFrame : Type := mkDataFrame {
  index_tz : option tzinfo;
  columns : list string;
  number_columns : list string;
  rows : list Reading
}.

(** ** Resampling: [frame.resample(freq, label=...).mean()]

    The cadence is a fixed-width (Tick) frequency such as ["15T"], ["1h"] or
    ["1D"], given by its width in nanoseconds.  For such a frequency pandas
    closes every bin on the left ([closed] defaults to ['left']), anchors the
    bins at midnight of the first reading's day ([origin='start_day']) and
    labels a bin with its left edge unless [label='right'] is passed. *)

Inductive Label : Type := LabelLeft | LabelRight.

Definition list_min (x : Z) (l : list Z) : Z := foldr Z.min x l.
Definition list_max (x : Z) (l : list Z) : Z := foldr Z.max x l.

(** [_adjust_dates_anchored] with [closed='left']. *)
Definition first_edge (tz : option tzinfo) (c first : Z) : Z :=
  first - (first - normalize tz first) `mod` c.

Definition last_edge (tz : option tzinfo) (c first last : Z) : Z :=
  last - (last - normalize tz first) `mod` c + c.

(** The rows of the bin with edges [l] and [r]: left edge in, right edge out. *)
Definition bin_rows (l r : Z) (data : list Reading) : list Reading :=
  filter (λ x, l ≤ time x ∧ time x < r) data.

Definition Qsum (xs : list Q) : Q := foldr Qplus 0%Q xs.

(** Mean of column [j] over the rows of one bin; nulls are skipped, and a bin
    without a non-null cell averages to null. *)
Definition column_mean (j : nat) (members : list Reading) : option Q :=
  let xs := omap (λ x, mjoin (cells x !! j)) members in
  match xs with
  | [] => None
  | _ => Some (Qred (Qsum xs / inject_Z (Z.of_nat (length xs))))
  end.

Definition bin_means (ncols : nat) (members : list Reading) : list (option Q) :=
  (λ j, column_mean j members) <$> seq 0 ncols.

Definition label_of (lbl : Label) (c l : Z) : Z :=
  match lbl with
  | LabelLeft => l
  | LabelRight => l + c
  end.

Definition resample_mean (lbl : Label) (tz : option tzinfo) (freq : positive)
    (ncols : nat) (data : list Reading) : list (Z * list (option Q)) :=
  match data with
  | [] => []
  | x :: rest =>
      let c := Z.pos freq in
      let first := list_min (time x) (time <$> rest) in
      let last := list_max (time x) (time <$> rest) in
      let e0 := first_edge tz c first in
      let n := (last_edge tz c first last - e0) `div` c in
      (λ i, let l := e0 + i * c in
            (label_of lbl c l, bin_means ncols (bin_rows l (l + c) data)))
        <$> seqZ 0 n
  end.

(** [frame.dropna(how="all", subset=cols)] keeps a row unless every cell of
    the subset is null. *)
Definition all_null (vals : list (option Q)) : bool :=
  forallb (λ v, bool_decide (v = None)) vals.

(** [Series.unique()]: the distinct values in order of first appearance. *)
Fixpoint unique_from (seen : list string) (l : list string) : list string :=
  match l with
  | [] => []
  | x :: l' =>
      if decide (x ∈ seen) then unique_from seen l'
      else x :: unique_from (x :: seen) l'
  end.

Definition unique (l : list string) : list string := unique_from [] l.

(** ** [sort_index]

    [frame.sort_index()] returns the frame as it is when its index is already
    non-decreasing; otherwise it reorders the rows with NumPy's default
    ([kind='quicksort']) argsort of the index values: ascending, with no
    promise on the order of equal keys. *)
Definition key_le {A : Type} (key : A → Z) : relation A := λ a b, key a ≤ key b.

Global Instance key_le_dec {A : Type} (key : A → Z) : RelDecision (key_le key).
Proof. intros a b. unfold key_le. apply _. Defined.

Global Instance key_le_total {A : Type} (key : A → Z) : Total (key_le key).
Proof. intros a b. unfold key_le. lia. Qed.

Global Instance key_le_trans {A : Type} (key : A → Z) : Transitive (key_le key).
Proof. intros a b c. unfold key_le. lia. Qed.

Class ArgSort : Type := {
  argsort : ∀ {A : Type}, (A → Z) → list A → list A;
  argsort_perm : ∀ (A : Type) (key : A → Z) (l : list A), argsort key l ≡ₚ l;
  argsort_sorted : ∀ (A : Type) (key : A → Z) (l : list A),
    Sorted (key_le key) (argsort key l)
}.

Definition is_monotonic_increasing {A : Type} (key : A → Z) (l : list A) : bool :=
  bool_decide (Sorted (key_le key) l).

Definition sort_index `{ArgSort} {A : Type} (key : A → Z) (l : list A) : list A :=
  if is_monotonic_increasing key l then l else argsort key l.

(** ** Exceptions and console output

    A computation yields the lines it printed and either the exception it
    raised or its value. *)
Inductive exn : Type := KeyError | ValueError | ZeroDivisionError | TypeError.

Inductive event : Type :=
  | CutoffReport (device : string) (install cutoff : Timestamp)
  | InstallDateError (device : string) (value : string)
  | NoInstallDate (device : string)
  | MetadataIds (n : nat)
  | Retained (original filtered : nat) (percent : Q)
  | PreInstallRemoved (device : string) (removed kept : nat)
  | WindowSummary (before after devices : nat)
  | NoNumericColumns
  | AggregatedRows (n : nat)
  | NoDataAfterAggregation
  | Saved
  | NoDataToSave.

Definition M (A : Type) : Type := list event * (exn + A).

Global Instance M_ret : MRet M := λ A a, ([], inr a).
Global Instance M_bind : MBind M := λ A B f m,
  match m with
  | (out, inl e) => (out, inl e)
  | (out, inr a) => let '(out', r) := f a in (out ++ out', r)
  end.

Definition print (ev : event) : M () := ([ev], inr ()).
Definition raise {A : Type} (e : exn) : M A := ([], inl e).

Definition printed {A : Type} (m : M A) : list event := m.1.
Definition outcome {A : Type} (m : M A) : exn + A := m.2.

Fixpoint foldM {A B : Type} (f : A → B → M A) (a : A) (l : list B) : M A :=
  match l with
  | [] => mret a
  | b :: l' => a' ← f a b; foldM f a' l'
  end.

(** [a / b] on Python integers. *)
Definition py_truediv (a b : nat) : M Q :=
  match b with
  | O => raise ZeroDivisionError
  | S _ => mret (inject_Z (Z.of_nat a) / inject_Z (Z.of_nat b))%Q
  end.

(** ** The insertion-ordered dictionary [device_install_dates] *)

Definition dict : Type := list (string * Timestamp).

Fixpoint dict_get (k : string) (d : dict) : option Timestamp :=
  match d with
  | [] => None
  | (k', v) :: d' => if decide (k = k') then Some v else dict_get k d'
  end.

(** [d[k] = v]: a known key keeps its place, a new one goes last. *)
Fixpoint dict_set (k : string) (v : Timestamp) (d : dict) : dict :=
  match d with
  | [] => [(k, v)]
  | (k', v') :: d' =>
      if decide (k = k') then (k, v) :: d' else (k', v') :: dict_set k v d'
  end.

(** ** Device metadata *)

(** A feature of the metadata collection: its ["id"] and the two alternate
    installation-date properties, [None] when absent or null. *)
Record Feature : Type := mkFeature {
  id : string;
  Date_installed : option string;
  Asennettu_pvm : option string
}.

Record GeoDataFrame : Type := mkGeoDataFrame {
  gcolumns : list string;
  features : list Feature
}.

(** The persisted frame: the ["dev-id"] column is categorical, a cell being
    one of the categories or null. *)
Record Artifact : Type := mkArtifact {
  categories : list string;
  art_rows : list (Z * option string * list (option Q))
}.

(** [sorted(list(ids))] for a set of strings. *)
Definition sorted_ids (ids : gset string) : list string :=
  merge_sort String.le (elements ids).

(** [series.astype(CategoricalDtype(categories))]: a value outside the
    categories becomes null. *)
Definition astype_category (cats : list string) (v : string) : option string :=
  if decide (v ∈ cats) then Some v else None.

(** ** The device pipeline: [save_aggregated_data] *)

Section DevicePipeline.

(** [pd.to_datetime] on an installation-date value: [None] when it raises,
    otherwise the timestamp it returns. *)
Variable to_datetime : string → option Timestamp.
Context `{ArgSort}.

(** Lines 83-89: the primary field when it is present, else the secondary. *)
Definition install_date_of (row : Feature) : option string :=
  match Date_installed row with
  | Some d => Some d
  | None => Asennettu_pvm row
  end.

(** Lines 98-105: bring the cutoff to the timezone of the frame's index. *)
Definition match_index_tz (itz : option tzinfo) (cutoff_date : Timestamp) : Timestamp :=
  match itz with
  | Some tz =>
      match ts_tz cutoff_date with
      | None => tz_localize UTC cutoff_date
      | Some ctz =>
          if decide (ctz ≠ tz) then tz_convert tz cutoff_date else cutoff_date
      end
  | None => cutoff_date
  end.

(** Lines 94-105: the value that line 107 stores for a parsed date. *)
Definition cutoff_of (itz : option tzinfo) (install_datetime : Timestamp) : Timestamp :=
  match_index_tz itz (add_days install_datetime 1).

(** Lines 82-116, one turn of the loop over the metadata rows.  The report
    of line 108 formats both timestamps with [strftime], which [NaT]
    refuses: that failure is caught like a parse failure, after line 107
    has stored the cutoff. *)
Definition register_feature (itz : option tzinfo) (dates : dict) (row : Feature) : M dict :=
  let device_id := id row in
  match install_date_of row with
  | Some install_date =>
      match to_datetime install_date with
      | Some install_datetime =>
          let cutoff_date := cutoff_of itz install_datetime in
          let dates' := dict_set device_id cutoff_date dates in
          match install_datetime with
          | Stamp _ _ =>
              print (CutoffReport device_id install_datetime cutoff_date);;
              mret dates'
          | NaT =>
              print (InstallDateError device_id install_date);;
              mret dates'
          end
      | None =>
          print (InstallDateError device_id install_date);;
          mret dates
      end
  | None =>
      print (NoInstallDate device_id);;
      mret dates
  end.

Definition parse_install_dates (itz : option tzinfo) (rows : list Feature) : M dict :=
  foldM (register_feature itz) [] rows.

(** Lines 139-153, one turn of the loop over [device_install_dates]. *)
Definition window_step (itz : option tzinfo) (st : list Reading * list string)
    (item : string * Timestamp) : M (list Reading * list string) :=
  let '(filtered_df, devices_with_install_dates) := st in
  let '(device_id, cutoff_date) := item in
  if comparable itz cutoff_date then
    let device_total :=
      length (filter (λ r, dev_id r = device_id) filtered_df) in
    let device_kept :=
      length (filter (λ r, dev_id r = device_id ∧ index_ge (time r) cutoff_date)
                     filtered_df) in
    let device_removed := (device_total - device_kept)%nat in
    let kept_rows :=
      filter (λ r, dev_id r ≠ device_id ∨ index_ge (time r) cutoff_date) filtered_df in
    if decide (0 < device_removed)%nat then
      print (PreInstallRemoved device_id device_removed device_kept);;
      mret (kept_rows, devices_with_install_dates ++ [device_id])
    else mret (kept_rows, devices_with_install_dates)
  else raise TypeError.

Definition window_filter (itz : option tzinfo) (dates : dict) (filtered_df : list Reading)
    : M (list Reading) :=
  st ← foldM (window_step itz) (filtered_df, []) dates;
  print (WindowSummary (length filtered_df) (length st.1) (length st.2));;
  mret st.1.

(** Lines 164-165. *)
Definition numeric_columns (df : DataFrame) : list string :=
  filter (λ col, col ≠ "dev-id") (number_columns df).

(** Lines 175-185: one device's partition, resampled and pruned. *)
Definition aggregate_device (itz : option tzinfo) (aggregation_level : positive)
    (ncols : nat) (filtered_df : list Reading) (device_id : string) : list Reading :=
  let device_data := filter (λ r, dev_id r = device_id) filtered_df in
  let device_resampled :=
    (λ b, mkReading b.1 device_id b.2)
      <$> resample_mean LabelRight itz aggregation_level ncols device_data in
  filter (λ r, ¬ all_null (cells r)) device_resampled.

(** Lines 172-196. *)
Definition aggregate_devices (itz : option tzinfo) (aggregation_level : positive)
    (ncols : nat) (filtered_df : list Reading) : M (list Reading) :=
  let aggregated_list :=
    filter (λ part, part ≠ [])
      (aggregate_device itz aggregation_level ncols filtered_df
         <$> unique (dev_id <$> filtered_df)) in
  match aggregated_list with
  | [] => print NoDataAfterAggregation;; mret []
  | _ =>
      let aggregated_df := sort_index time (concat aggregated_list) in
      print (AggregatedRows (length aggregated_df));;
      mret aggregated_df
  end.

(** Lines 199-235.  The 32-bit downcast of the two metric columns is a
    rounding step and leaves no trace here. *)
Definition encode (valid_device_ids : gset string) (aggregated_df : list Reading) : Artifact :=
  let cats := sorted_ids valid_device_ids in
  mkArtifact cats
    ((λ r, (time r, astype_category cats (dev_id r), cells r)) <$> aggregated_df).

Definition save (valid_device_ids : gset string) (aggregated_df : list Reading)
    : M (option Artifact) :=
  match aggregated_df with
  | [] => print NoDataToSave;; mret None
  | _ => print Saved;; mret (Some (encode valid_device_ids aggregated_df))
  end.

(** The function returns the aggregated frame; the second component is the
    file it wrote, if any. *)
Definition save_aggregated_data (df : DataFrame) (gdf : GeoDataFrame)
    (aggregation_level : positive) : M (list Reading * option Artifact) :=
  if decide ("dev-id" ∉ columns df) then raise KeyError
  else if decide ("id" ∉ gcolumns gdf) then raise KeyError
  else
    device_install_dates ← parse_install_dates (index_tz df) (features gdf);
    let valid_device_ids : gset string := list_to_set (id <$> features gdf) in
    print (MetadataIds (size valid_device_ids));;
    let original_count := length (rows df) in
    let filtered_df := filter (λ r, dev_id r ∈ valid_device_ids) (rows df) in
    let filtered_count := length filtered_df in
    ratio ← py_truediv filtered_count original_count;
    print (Retained original_count filtered_count (ratio * 100)%Q);;
    if decide (filtered_df = []) then raise ValueError
    else
      filtered_df ← window_filter (index_tz df) device_install_dates filtered_df;
      aggregated_df ←
        match numeric_columns df with
        | [] => print NoNumericColumns;; mret filtered_df
        | cols =>
            aggregate_devices (index_tz df) aggregation_level (length cols) filtered_df
        end;
      written ← save valid_device_ids aggregated_df;
      mret (aggregated_df, written).

End DevicePipeline.

(** ** The station pipeline: [combine_fmi_data] *)

(** A row of a weather-station frame: the index value, the ["Station"] cell,
    the ["fmisid"] cell when that column holds text, and the cells of the
    numeric columns in column order (["fmisid"] among them when it holds
    numbers). *)
Record StationReading : Type := mkStationReading {
  s_time : Z;
  Station : string;
  fmisid_text : option string;
  s_cells : list (option Q)
}.

Record StationFrame : Type := mkStationFrame {
  s_index_tz : option tzinfo;
  s_columns : list string;
  s_number_columns : list string;
  s_rows : list StationReading
}.

(** A row of the aggregated station frame. *)
Record StationBucket : Type := mkStationBucket {
  b_time : Z;
  b_station : string;
  b_fmisid_text : option string;
  b_cells : list (option Q)
}.

Definition stations_to_save : list string :=
  [ "Helsinki Kaisaniemi";
    "Helsinki Kumpula";
    "Helsinki Malmi lentokenttä";
    "Helsinki Harmaja";
    "Vantaa Helsinki-Vantaan lentoasema" ].

(** ["2024-05-01"] read in the timezone of the index. *)
Definition fmi_epoch (tz : option tzinfo) : Z :=
  19844 * NANOS_PER_DAY - default 0 tz.

(** [station_data[numeric_columns]] *)
Definition numeric_part (r : StationReading) : Reading :=
  mkReading (s_time r) (Station r) (s_cells r).

(** Lines 287-289: [station_resampled["fmisid"] = station_data["fmisid"].iloc[0]]
    overwrites the numeric column of that name when there is one, and adds a
    text column otherwise. *)
Definition set_fmisid (numeric_columns : list string) (first_row : StationReading)
    (b : StationBucket) : StationBucket :=
  match list_find (λ col, col = "fmisid") numeric_columns with
  | Some (i, _) =>
      mkStationBucket (b_time b) (b_station b) (b_fmisid_text b)
        (<[i := mjoin (s_cells first_row !! i)]> (b_cells b))
  | None =>
      mkStationBucket (b_time b) (b_station b) (fmisid_text first_row) (b_cells b)
  end.

(** Lines 280-292: one station's partition. *)
Definition aggregate_station (df : StationFrame) (aggregate : positive)
    (station : string) : list StationBucket :=
  let numeric_columns := s_number_columns df in
  let station_data := filter (λ r, Station r = station) (s_rows df) in
  let station_resampled :=
    (λ b, mkStationBucket b.1 station None b.2)
      <$> resample_mean LabelLeft (s_index_tz df) aggregate (length numeric_columns)
            (numeric_part <$> station_data) in
  let station_resampled :=
    if decide ("fmisid" ∈ s_columns df) then
      match station_data with
      | first_row :: _ => set_fmisid numeric_columns first_row <$> station_resampled
      | [] => station_resampled
      end
    else station_resampled in
  filter (λ r, ¬ all_null (b_cells r)) station_resampled.

Section StationPipeline.

Context `{ArgSort}.

(** Lines 277-305. *)
Definition aggregate_stations (df : StationFrame) (aggregate : positive)
    : M (list StationBucket) :=
  let aggregated_list :=
    filter (λ part, part ≠ [])
      (aggregate_station df aggregate <$> unique (Station <$> s_rows df)) in
  match aggregated_list with
  | [] => print NoDataAfterAggregation;; mret []
  | _ =>
      let df_agg := sort_index b_time (concat aggregated_list) in
      print (AggregatedRows (length df_agg));;
      mret df_agg
  end.

(** The input files share one schema; [pd.concat] refuses an empty list.
    The result holds the frame the function returns and writes to
    [fmi_out], and the aggregated frame it writes next to it. *)
Definition combine_fmi_data (fmi_in : list StationFrame) (aggregate : positive)
    : M (StationFrame * list StationBucket) :=
  match fmi_in with
  | [] => raise ValueError
  | schema :: _ =>
      let df := concat (s_rows <$> fmi_in) in
      let df := filter (λ r, fmi_epoch (s_index_tz schema) ≤ s_time r) df in
      let df := filter (λ r, Station r ∈ stations_to_save) df in
      let df := mkStationFrame (s_index_tz schema) (s_columns schema)
                  (s_number_columns schema) df in
      print Saved;;
      df_agg ← aggregate_stations df aggregate;
      mret (df, df_agg)
  end.

End StationPipeline.

(** ** Sample instances of the library parameters *)

(** A sorting kernel that meets the promise; this one happens to be stable. *)
Global Program Instance merge_argsort : ArgSort := {|
  argsort A key l := merge_sort (key_le key) l
|}.
Next Obligation. intros; apply merge_sort_Permutation. Qed.
Next Obligation. intros; apply (Sorted_merge_sort _). Qed.

(** What [pd.to_datetime] does on a handful of values. *)
Definition sample_to_datetime (s : string) : option Timestamp :=
  if decide (s = "2024-01-02") then Some (Stamp (19724 * NANOS_PER_DAY) None)
  else if decide (s = "2024-01-02T00:00:00+02:00")
       then Some (Stamp (19724 * NANOS_PER_DAY - 2 * NANOS_PER_HOUR)
                        (Some (2 * NANOS_PER_HOUR)))
  else if decide (s = "2024-06-10") then Some (Stamp (19884 * NANOS_PER_DAY) None)
  else if decide (s = "") then Some NaT
  else None.

(** ** The command line: [parse_args] and [main] *)

(** A [pathlib.Path], by the three parts the script reads off it. *)
Record Path : Type := mkPath {
  p_parent : string;
  p_stem : string;
  p_suffix : string
}.

(** The [argparse.Namespace] of the script.  An option that was not given is
    [None]; [nargs="+"] makes a given list non-empty. *)
Record Namespace : Type := mkNamespace {
  geojson_in : option (list Path);
  geojson_out : option Path;
  parquet_in : option (list Path);
  parquet_out : option Path;
  fmi_in : option (list Path);
  fmi_out : option Path;
  aggregate : string
}.

(** Truth value of an optional list: [None] and the empty list are false. *)
Definition list_given {A : Type} (o : option (list A)) : bool :=
  match o with
  | Some (_ :: _) => true
  | _ => false
  end.

(** Truth value of an optional path: every [Path] is true. *)
Definition path_given (o : option Path) : bool :=
  match o with
  | Some _ => true
  | None => false
  end.

(** Lines 44-48, after [argparse] has filled the namespace: [None] stands
    for [parser.error], which ends the process with status 2. *)
Definition parse_args (args : Namespace) : option Namespace :=
  if negb ((list_given (geojson_in args) && path_given (geojson_out args))
           || (list_given (parquet_in args) && path_given (parquet_out args)))
  then None
  else Some args.

(** Lines 306 and 335: [f"{out.parent}/{out.stem}_{aggregate}{out.suffix}"]. *)
Definition fname_agg (out : Path) (aggregate : string) : string :=
  p_parent out +:+ "/" +:+ p_stem out +:+ "_" +:+ aggregate +:+ p_suffix out.

(** The file [out] itself, written the same way. *)
Definition fname (out : Path) : string :=
  p_parent out +:+ "/" +:+ p_stem out +:+ p_suffix out.

(** What one call of [main] has run: the station pipeline's result and the
    device pipeline's, each with the name of the aggregated file it was
    given. *)
Record Run : Type := mkRun {
  fmi_run : option (string * (StationFrame * list StationBucket));
  device_run : option (string * (list Reading * option Artifact))
}.

Section Main.

Variable to_datetime : string → option Timestamp.
Context `{ArgSort}.

(** The two combiners of [fvhdata.utils] and [pd.read_parquet] are library
    code reading files; a combiner's result may be [None].  [to_offset] is
    the width pandas reads off a valid cadence string; other strings are
    outside the model. *)
Variable combine_geojson : list Path → Path → option GeoDataFrame.
Variable combine_parquet : list Path → Path → option DataFrame.
Variable read_parquet : Path → StationFrame.
Variable to_offset : string → positive.

(** Lines 311-336.  The result is [None] when [parse_args] ends the
    process; the progress lines of [main] itself are not recorded. *)
Definition main (argv : Namespace) : option (exn + Run) :=
  args ← parse_args argv;
  let gdf :=
    match geojson_in args, geojson_out args with
    | Some (f :: fs), Some out => combine_geojson (f :: fs) out
    | _, _ => None
    end in
  let df :=
    match parquet_in args, parquet_out args with
    | Some (f :: fs), Some out => combine_parquet (f :: fs) out
    | _, _ => None
    end in
  let fmi :=
    match fmi_in args, fmi_out args with
    | Some (f :: fs), Some out =>
        match outcome (combine_fmi_data (read_parquet <$> f :: fs)
                         (to_offset (aggregate args))) with
        | inl e => inl e
        | inr r => inr (Some (fname_agg out (aggregate args), r))
        end
    | _, _ => inr None
    end in
  Some
    match fmi with
    | inl e => inl e
    | inr fmi_result =>
        match gdf, df, parquet_out args with
        | Some gdf, Some df, Some out =>
            match outcome (save_aggregated_data to_datetime df gdf
                             (to_offset (aggregate args))) with
            | inl e => inl e
            | inr r =>
                inr (mkRun fmi_result (Some (fname_agg out (aggregate args), r)))
            end
        | _, _, _ => inr (mkRun fmi_result None)
        end
    end.

End Main.

(** ** Notions used in the statements *)

(** A row passes every turn of the loop. *)
Definition passes (dates : dict) (r : Reading) : Prop :=
  Forall (λ item, dev_id r ≠ item.1 ∨ index_ge (time r) item.2) dates.

Global Instance passes_dec dates r : Decision (passes dates r).
Proof. unfold passes. apply _. Defined.

(** A row is at or after its own device's cutoff, if the device has one. *)
Definition survives (dates : dict) (r : Reading) : Prop :=
  match dict_get (dev_id r) dates with
  | None => True
  | Some cutoff => index_ge (time r) cutoff
  end.

Global Instance survives_dec dates r : Decision (survives dates r).
Proof. unfold survives. destruct (dict_get (dev_id r) dates); apply _. Defined.

(** The claim's reading of the bucket labelled [t]: the readings of
    [(t - c, t]]. *)
Definition right_closed_rows (c t : Z) (data : list Reading) : list Reading :=
  filter (λ x, t - c < time x ∧ time x ≤ t) data.

Definition summarizes_right_closed (itz : option tzinfo) (freq : positive)
    (ncols : nat) (filtered_df : list Reading) (device_id : string) : Prop :=
  ∀ out, out ∈ aggregate_device itz freq ncols filtered_df device_id →
    cells out =
    bin_means ncols
      (right_closed_rows (Z.pos freq) (time out)
         (filter (λ r, dev_id r = device_id) filtered_df)).

(** The claim's order: among rows with the same bucket timestamp, the one
    with the smaller device id comes first. *)
Definition ties_in_key_order (out : list Reading) : Prop :=
  ∀ i j ri rj,
    out !! i = Some ri → out !! j = Some rj →
    time ri = time rj →
    String.le (dev_id ri) (dev_id rj) → dev_id ri ≠ dev_id rj →
    (i < j)%nat.

(** The claim's normalization: localized to UTC when the index is aware and
    the cutoff naive, otherwise the same instant in the index's timezone. *)
Definition in_index_tz (itz : option tzinfo) (ts : Timestamp) : Timestamp :=
  match ts with
  | NaT => NaT
  | Stamp v _ => Stamp v itz
  end.

Definition claimed_cutoff (itz : option tzinfo) (install_datetime : Timestamp) : Timestamp :=
  let cutoff_date := add_days install_datetime 1 in
  match itz, ts_tz cutoff_date with
  | Some _, None => tz_localize UTC cutoff_date
  | _, _ => in_index_tz itz cutoff_date
  end.

(** Two bucket labels in ascending order, a whole number of cadences apart. *)
Definition spaced (c : Z) (a b : Z) : Prop := a < b ∧ (c | b - a).

Section Derived.

Variable to_datetime : string → option Timestamp.
Context `{ArgSort}.

(** The cutoff one metadata row leaves in the dictionary, if any. *)
Definition stored_cutoff (itz : option tzinfo) (row : Feature) : option Timestamp :=
  install_date ← install_date_of row;
  install_datetime ← to_datetime install_date;
  Some (cutoff_of itz install_datetime).

Definition dates_after (itz : option tzinfo) (dates : dict) (row : Feature) : dict :=
  match stored_cutoff itz row with
  | Some cutoff_date => dict_set (id row) cutoff_date dates
  | None => dates
  end.

Definition derives_claimed_cutoff (itz : option tzinfo) (row : Feature) : Prop :=
  ∀ install_date install_datetime,
    install_date_of row = Some install_date →
    to_datetime install_date = Some install_datetime →
    outcome (register_feature to_datetime itz [] row) =
      inr [(id row, claimed_cutoff itz install_datetime)].

Definition partitions (itz : option tzinfo) (freq : positive) (ncols : nat)
    (filtered_df : list Reading) : list (list Reading) :=
  filter (λ part, part ≠ [])
    (aggregate_device itz freq ncols filtered_df <$> unique (dev_id <$> filtered_df)).

Definition aggregated_rows (itz : option tzinfo) (freq : positive) (ncols : nat)
    (filtered_df : list Reading) : list Reading :=
  match partitions itz freq ncols filtered_df with
  | [] => []
  | parts => sort_index time (concat parts)
  end.

Definition written_file (valid_device_ids : gset string) (aggregated_df : list Reading)
    : option Artifact :=
  match aggregated_df with
  | [] => None
  | _ => Some (encode valid_device_ids aggregated_df)
  end.

(** The dictionary the loop over the metadata leaves behind. *)
Definition parsed_dates (df : DataFrame) (gdf : GeoDataFrame) : dict :=
  foldl (dates_after (index_tz df)) [] (features gdf).

(** The rows of the raw frame whose device the metadata lists. *)
Definition known_rows (df : DataFrame) (gdf : GeoDataFrame) : list Reading :=
  filter (λ r, dev_id r ∈ (list_to_set (id <$> features gdf) : gset string)) (rows df).

(** The raw frame cut down to the rows of known devices. *)
Definition known_only (df : DataFrame) (gdf : GeoDataFrame) : DataFrame :=
  mkDataFrame (index_tz df) (columns df) (number_columns df) (known_rows df gdf).

End Derived.

(** ** Sample inputs *)

Definition one_hour : positive := 3600000000000.

(** 2024-01-01T00:00 UTC. *)
Definition new_year_2024 : Z := 19723 * NANOS_PER_DAY.

(** One reading of device X1 at 13:00 sharp. *)
Definition on_the_hour : list Reading :=
  [ mkReading (new_year_2024 + 13 * NANOS_PER_HOUR) "X1" [Some 10%Q] ].

(** A record whose install date carries its own UTC offset. *)
Definition installed_with_offset : Feature :=
  mkFeature "X1" (Some "2024-01-02T00:00:00+02:00") None.

(** Device B reports before device A, both within the same hour. *)
Definition b_before_a : list Reading :=
  [ mkReading (new_year_2024 + 600000000000) "B" [Some 10%Q];
    mkReading (new_year_2024 + 900000000000) "A" [Some 20%Q] ].

(** May Day 2024, 00:00 UTC: the first instant the station pipeline keeps. *)
Definition may_day_2024 : Z := 19844 * NANOS_PER_DAY.

(** Hourly-gapped readings of one station whose [fmisid] column is numeric:
    00:10 and 02:10, nothing in between. *)
Definition kumpula_with_gap : StationFrame :=
  mkStationFrame (Some UTC)
    ["Station"; "fmisid"; "Air temperature"] ["fmisid"; "Air temperature"]
    [ mkStationReading (may_day_2024 + 600000000000)
        "Helsinki Kumpula" None [Some 101004%Q; Some 10%Q];
      mkStationReading (may_day_2024 + 2 * NANOS_PER_HOUR + 600000000000)
        "Helsinki Kumpula" None [Some 101004%Q; Some 20%Q] ].

(** Two readings of one station within the first hour of May Day, and one of
    a station outside the allow-list. *)
Definition kumpula_half_hours : StationFrame :=
  mkStationFrame (Some UTC) ["Station"; "Air temperature"] ["Air temperature"]
    [ mkStationReading (may_day_2024 + 600000000000) "Helsinki Kumpula" None [Some 10%Q];
      mkStationReading (may_day_2024 + 2400000000000) "Helsinki Kumpula" None [Some 20%Q];
      mkStationReading (may_day_2024 + 2400000000000) "Turku Artukainen" None [Some 30%Q] ].

Definition one_device : GeoDataFrame :=
  mkGeoDataFrame ["id"; "Date_installed"] [ mkFeature "X1" (Some "2024-01-02") None ].

Definition empty_raw : DataFrame :=
  mkDataFrame (Some UTC) ["dev-id"; "temperature"] ["temperature"] [].

(** Device X1 was installed on 2024-01-02: its reading of New Year's Day goes,
    its readings of 2024-01-04 at 00:10 and 00:40 stay; device X9 is unknown
    to the metadata. *)
Definition three_devices_raw : DataFrame :=
  mkDataFrame (Some UTC) ["dev-id"; "temperature"] ["temperature"]
    [ mkReading (new_year_2024 + 600000000000) "X1" [Some 5%Q];
      mkReading (new_year_2024 + 3 * NANOS_PER_DAY + 600000000000) "X1" [Some 10%Q];
      mkReading (new_year_2024 + 3 * NANOS_PER_DAY + 2400000000000) "X1" [Some 20%Q];
      mkReading (new_year_2024 + 3 * NANOS_PER_DAY + 2400000000000) "X9" [Some 30%Q] ].

Definition x1_bucket : Reading :=
  mkReading (new_year_2024 + 3 * NANOS_PER_DAY + NANOS_PER_HOUR) "X1" [Some 15%Q].

Definition x1_cutoff : dict := [("X1", Stamp (19725 * NANOS_PER_DAY) (Some UTC))].

(** A record whose install date no parser accepts. *)
Definition installed_someday : Feature := mkFeature "X2" None (Some "someday").

(** Device X1 on New Year's Day: 10 degrees at 00:10, 20 degrees at 00:40. *)
Definition half_hours_raw : DataFrame :=
  mkDataFrame (Some UTC) ["dev-id"; "temperature"] ["temperature"]
    [ mkReading (new_year_2024 + 600000000000) "X1" [Some 10%Q];
      mkReading (new_year_2024 + 2400000000000) "X1" [Some 20%Q] ].

Definition x1_undated : GeoDataFrame :=
  mkGeoDataFrame ["id"] [ mkFeature "X1" None None ].

Definition only_z1 : GeoDataFrame :=
  mkGeoDataFrame ["id"] [ mkFeature "Z1" None None ].

(** Device X1, installed on 2024-01-02, with readings of New Year's Day
    only. *)
Definition early_raw : DataFrame :=
  mkDataFrame (Some UTC) ["dev-id"; "temperature"] ["temperature"]
    [ mkReading (new_year_2024 + 600000000000) "X1" [Some 5%Q];
      mkReading (new_year_2024 + 2400000000000) "X1" [Some 6%Q] ].

(** A frame with the device id and a text column, and no numeric column. *)
Definition ids_only_raw : DataFrame :=
  mkDataFrame (Some UTC) ["dev-id"; "note"] []
    [ mkReading (new_year_2024 + 600000000000) "X1" [];
      mkReading (new_year_2024 + 3 * NANOS_PER_DAY + 600000000000) "X1" [];
      mkReading (new_year_2024 + 3 * NANOS_PER_DAY + 700000000000) "X9" [] ].

(** Device X1 at 00:10 and at 03:10. *)
Definition three_hours_apart : list Reading :=
  [ mkReading (new_year_2024 + 600000000000) "X1" [Some 10%Q];
    mkReading (new_year_2024 + 3 * NANOS_PER_HOUR + 600000000000) "X1" [Some 20%Q] ].

Definition two_cutoffs : dict :=
  [ ("X1", Stamp (19725 * NANOS_PER_DAY) (Some UTC));
    ("X2", Stamp (19730 * NANOS_PER_DAY) (Some UTC)) ].

(** One station file with a station outside the allow-list only. *)
Definition turku_only : StationFrame :=
  mkStationFrame (Some UTC) ["Station"; "Air temperature"] ["Air temperature"]
    [ mkStationReading (may_day_2024 + 2400000000000) "Turku Artukainen" None [Some 30%Q] ].

Definition data_paths : Namespace :=
  mkNamespace
    (Some [mkPath "data/raw" "sensors" ".geojson"])
    (Some (mkPath "data/interim" "sensors" ".geojson"))
    (Some [mkPath "data/raw" "data" ".parquet"])
    (Some (mkPath "data/interim" "data" ".parquet"))
    None None "1h".

Definition fmi_paths_only : Namespace :=
  mkNamespace None None None None
    (Some [mkPath "data/raw" "fmi" ".parquet"])
    (Some (mkPath "data/interim" "fmi" ".parquet"))
    "1h".

(** A record whose install date is the empty string. *)
Definition installed_blank : Feature := mkFeature "X1" (Some "") None.

Definition x1_blank : GeoDataFrame :=
  mkGeoDataFrame ["id"; "Date_installed"] [installed_blank].

Definition x1_with_offset : GeoDataFrame :=
  mkGeoDataFrame ["id"; "Date_installed"] [installed_with_offset].

(** Device X1 on a timezone-naive index: two readings of 2024-01-04. *)
Definition naive_raw : DataFrame :=
  mkDataFrame None ["dev-id"; "temperature"] ["temperature"]
    [ mkReading (new_year_2024 + 3 * NANOS_PER_DAY + 600000000000) "X1" [Some 10%Q];
      mkReading (new_year_2024 + 3 * NANOS_PER_DAY + 2400000000000) "X1" [Some 20%Q] ].

(** * Properties *)

(** ** Resampling *)

Section Resample.

Variables (tz : option tzinfo) (freq : positive).
Let c : Z := Z.pos freq.

Lemma list_min_le x l : list_min x l ≤ x ∧ ∀ y, y ∈ l → list_min x l ≤ y.
Proof.
  induction l as [|z l [IH1 IH2]]; simpl.
  - split; [lia|]. intros y Hy. by apply elem_of_nil in Hy.
  - split; [lia|]. intros y [->|Hy]%elem_of_cons; [lia|].
    specialize (IH2 y Hy). lia.
Qed.

Lemma list_max_ge x l : x ≤ list_max x l ∧ ∀ y, y ∈ l → y ≤ list_max x l.
Proof.
  induction l as [|z l [IH1 IH2]]; simpl.
  - split; [lia|]. intros y Hy. by apply elem_of_nil in Hy.
  - split; [lia|]. intros y [->|Hy]%elem_of_cons; [lia|].
    specialize (IH2 y Hy). lia.
Qed.

(** The edges sit on the grid anchored at the origin, and enclose the data. *)
Lemma edges_grid (first last : Z) :
  first ≤ last →
  let o := normalize tz first in
  let e0 := first_edge tz c first in
  let n := (last_edge tz c first last - e0) `div` c in
  e0 = o + (first - o) `div` c * c ∧
  e0 ≤ first ∧
  last < e0 + n * c ∧
  last_edge tz c first last = e0 + n * c.
Proof.
  intros Hle o e0 n. subst e0 n. unfold first_edge, last_edge. fold o.
  assert (Hc : 0 < c) by (unfold c; lia).
  pose proof (Z.div_mod (first - o) c ltac:(lia)) as Hf.
  pose proof (Z.div_mod (last - o) c ltac:(lia)) as Hl.
  pose proof (Z.mod_pos_bound (first - o) c Hc) as Hfb.
  pose proof (Z.mod_pos_bound (last - o) c Hc) as Hlb.
  set (qf := (first - o) `div` c) in *. set (ql := (last - o) `div` c) in *.
  set (rf := (first - o) `mod` c) in *. set (rl := (last - o) `mod` c) in *.
  assert (Hdiff : last - rl + c - (first - rf) = (ql - qf + 1) * c) by lia.
  rewrite Hdiff, Z.div_mul by lia.
  repeat split; lia.
Qed.

(** A row of the resampled frame is a bin of the grid with its means. *)
Lemma elem_of_resample_mean lbl ncols x rest t vals :
  let data := x :: rest in
  let first := list_min (time x) (time <$> rest) in
  let last := list_max (time x) (time <$> rest) in
  let e0 := first_edge tz c first in
  let n := (last_edge tz c first last - e0) `div` c in
  (t, vals) ∈ resample_mean lbl tz freq ncols data ↔
  ∃ i, 0 ≤ i < n ∧ t = label_of lbl c (e0 + i * c) ∧
       vals = bin_means ncols (bin_rows (e0 + i * c) (e0 + i * c + c) data).
Proof.
  intros data first last e0 n. unfold resample_mean, data. fold c first last e0 n.
  rewrite list_elem_of_fmap. split.
  - intros (i & Heq & Hi). apply elem_of_seqZ in Hi.
    injection Heq as -> ->. exists i. split; [lia|done].
  - intros (i & Hi & -> & ->). exists i. split; [done|].
    apply elem_of_seqZ. lia.
Qed.

Lemma data_within_edges x rest r :
  r ∈ x :: rest →
  list_min (time x) (time <$> rest) ≤ time r ≤ list_max (time x) (time <$> rest).
Proof.
  destruct (list_min_le (time x) (time <$> rest)) as [Hm1 Hm2].
  destruct (list_max_ge (time x) (time <$> rest)) as [HM1 HM2].
  intros [->|Hr]%elem_of_cons; [lia|].
  assert (time r ∈ time <$> rest) by (apply list_elem_of_fmap; eauto).
  split; [apply Hm2 | apply HM2]; done.
Qed.

(** With [label='right'] the row labelled [t] averages the readings of
    [[t - c, t)]. *)
Lemma resample_right_content ncols data t vals :
  (t, vals) ∈ resample_mean LabelRight tz freq ncols data →
  vals = bin_means ncols (bin_rows (t - c) t data).
Proof.
  destruct data as [|x rest]; [by intros ?%elem_of_nil|].
  intros (i & _ & -> & ->)%elem_of_resample_mean. simpl.
  by replace (first_edge tz c (list_min (time x) (time <$> rest)) + i * c + c - c)
    with (first_edge tz c (list_min (time x) (time <$> rest)) + i * c) by lia.
Qed.

(** With the default label the row labelled [t] averages the readings of
    [[t, t + c)]. *)
Lemma resample_left_content ncols data t vals :
  (t, vals) ∈ resample_mean LabelLeft tz freq ncols data →
  vals = bin_means ncols (bin_rows t (t + c) data).
Proof.
  destruct data as [|x rest]; [by intros ?%elem_of_nil|].
  by intros (i & _ & -> & ->)%elem_of_resample_mean.
Qed.

(** Every reading falls in exactly one bin: the one whose left edge is the
    last grid point at or before it. *)
Lemma resample_covers lbl ncols data r :
  r ∈ data →
  ∃ l, (label_of lbl c l, bin_means ncols (bin_rows l (l + c) data))
         ∈ resample_mean lbl tz freq ncols data ∧
       l ≤ time r < l + c.
Proof.
  destruct data as [|x rest]; [by intros ?%elem_of_nil|].
  intros Hr. pose proof (data_within_edges _ _ _ Hr) as [Hlo Hhi].
  set (first := list_min (time x) (time <$> rest)) in *.
  set (last := list_max (time x) (time <$> rest)) in *.
  destruct (edges_grid first last ltac:(lia)) as (_ & He0 & Hlast & _).
  set (e0 := first_edge tz c first) in *.
  set (n := (last_edge tz c first last - e0) `div` c) in *.
  assert (Hc : 0 < c) by (unfold c; lia).
  pose proof (Z.div_mod (time r - e0) c ltac:(lia)) as Hd.
  pose proof (Z.mod_pos_bound (time r - e0) c Hc) as Hb.
  set (i := (time r - e0) `div` c) in *.
  assert (0 ≤ i) by (apply Z.div_pos; lia).
  assert (i < n) by nia.
  exists (e0 + i * c). split; [|lia].
  apply elem_of_resample_mean. exists i. fold first last e0 n. split; [lia|done].
Qed.

(** Two rows of the resampled frame with overlapping bins are the same row. *)
Lemma resample_bins_disjoint lbl ncols data b1 b2 s :
  b1 ∈ resample_mean lbl tz freq ncols data →
  b2 ∈ resample_mean lbl tz freq ncols data →
  (let l1 := match lbl with LabelLeft => b1.1 | LabelRight => b1.1 - c end in
   let l2 := match lbl with LabelLeft => b2.1 | LabelRight => b2.1 - c end in
   l1 ≤ s < l1 + c ∧ l2 ≤ s < l2 + c) →
  b1 = b2.
Proof.
  destruct data as [|x rest]; [by intros ?%elem_of_nil|].
  destruct b1 as [t1 v1], b2 as [t2 v2].
  intros (i & _ & -> & ->)%elem_of_resample_mean
         (j & _ & -> & ->)%elem_of_resample_mean; simpl.
  intros [H1 H2].
  assert (i = j) as ->; [|done].
  assert (Hc : 0 < c) by (unfold c; lia).
  destruct lbl; simpl in *; nia.
Qed.

End Resample.

(** ** Null means *)

Lemma column_mean_None j members :
  column_mean j members = None ↔ ∀ r, r ∈ members → mjoin (cells r !! j) = None.
Proof.
  unfold column_mean.
  destruct (omap (λ x, mjoin (cells x !! j)) members) as [|q qs] eqn:E.
  - split; [|done]. intros _ r Hr.
    destruct (mjoin (cells r !! j)) as [v|] eqn:Hv; [|done].
    assert (Hin : v ∈ omap (λ x, mjoin (cells x !! j)) members)
      by (apply list_elem_of_omap; eauto).
    rewrite E in Hin. by apply elem_of_nil in Hin.
  - split; [done|]. intros Hall.
    assert (Hin : q ∈ omap (λ x, mjoin (cells x !! j)) members)
      by (rewrite E; left).
    apply list_elem_of_omap in Hin as (r & Hr & Hq).
    rewrite (Hall r Hr) in Hq. done.
Qed.

(** A bin's means are all null exactly when no reading of the bin has a
    non-null cell in one of the averaged columns. *)
Lemma all_null_bin_means ncols members :
  all_null (bin_means ncols members) ↔
  ∀ r j, r ∈ members → (j < ncols)%nat → mjoin (cells r !! j) = None.
Proof.
  unfold all_null, bin_means. rewrite forallb_True, Forall_fmap, Forall_forall.
  split.
  - intros Hall r j Hr Hj.
    assert (Hin : j ∈ seq 0 ncols) by (apply elem_of_seq; lia).
    specialize (Hall j Hin). simpl in Hall. apply bool_decide_unpack in Hall.
    by eapply column_mean_None.
  - intros Hall j Hj%elem_of_seq. simpl. apply bool_decide_pack.
    apply column_mean_None. intros r Hr. apply Hall; [done|lia].
Qed.

Lemma column_mean_nonnull j members :
  column_mean j members ≠ None →
  ∃ r v, r ∈ members ∧ cells r !! j = Some (Some v).
Proof.
  unfold column_mean.
  destruct (omap (λ x, mjoin (cells x !! j)) members) as [|q qs] eqn:E; [done|].
  intros _.
  assert (Hin : q ∈ omap (λ x, mjoin (cells x !! j)) members) by (rewrite E; left).
  apply list_elem_of_omap in Hin as (r & Hr & Hq).
  exists r, q. split; [done|].
  by destruct (cells r !! j) as [[v|]|]; simplify_eq/=.
Qed.

(** Some mean of a bin is non-null exactly when a reading of the bin has a
    non-null cell in an averaged column. *)
Lemma some_mean_nonnull ncols members :
  ¬ all_null (bin_means ncols members) ↔
  ∃ r j v, r ∈ members ∧ (j < ncols)%nat ∧ cells r !! j = Some (Some v).
Proof.
  split.
  - intros Hnn. unfold all_null, bin_means in Hnn.
    rewrite forallb_True, Forall_fmap in Hnn.
    apply not_Forall_Exists in Hnn; [|apply _].
    apply Exists_exists in Hnn as (j & Hj%elem_of_seq & Hmean). simpl in Hmean.
    rewrite bool_decide_spec in Hmean.
    apply column_mean_nonnull in Hmean as (r & v & Hr & Hcell).
    exists r, j, v. split_and!; [done|lia|done].
  - intros (r & j & v & Hr & Hj & Hcell). rewrite all_null_bin_means.
    intros Hall. specialize (Hall r j Hr Hj). by rewrite Hcell in Hall.
Qed.

(** ** C1: which readings a device bucket summarizes *)

Lemma aggregate_device_elem itz freq ncols filtered_df device_id out :
  out ∈ aggregate_device itz freq ncols filtered_df device_id ↔
  ∃ b, b ∈ resample_mean LabelRight itz freq ncols
             (filter (λ r, dev_id r = device_id) filtered_df) ∧
       out = mkReading b.1 device_id b.2 ∧ ¬ all_null b.2.
Proof.
  unfold aggregate_device. rewrite list_elem_of_filter, list_elem_of_fmap.
  split.
  - intros (Hnn & b & -> & Hb). eauto.
  - intros (b & Hb & -> & Hnn). eauto.
Qed.

(** C1, as amended: the device bucket labelled [t] at cadence [c] carries the
    means of exactly the device's readings in [[t - c, t)], and every reading
    of the device is assigned to one bin only, the one labelled with the
    first cadence boundary strictly after the reading. *)
Theorem C1_bucket_is_left_closed (itz : option tzinfo) (aggregation_level : positive)
    (ncols : nat) (filtered_df : list Reading) (device_id : string) :
  let c := Z.pos aggregation_level in
  let device_data := filter (λ r, dev_id r = device_id) filtered_df in
  (∀ out, out ∈ aggregate_device itz aggregation_level ncols filtered_df device_id →
     dev_id out = device_id ∧
     cells out = bin_means ncols (bin_rows (time out - c) (time out) device_data)) ∧
  (∀ r, r ∈ device_data →
     ∃ b, b ∈ resample_mean LabelRight itz aggregation_level ncols device_data ∧
          b.1 - c ≤ time r < b.1 ∧
          ∀ b', b' ∈ resample_mean LabelRight itz aggregation_level ncols device_data →
                b'.1 - c ≤ time r < b'.1 → b' = b).
Proof.
  intros c device_data. subst c. split.
  - intros out (b & Hb & -> & _)%aggregate_device_elem. simpl. split; [done|].
    destruct b as [t vals]. by apply resample_right_content in Hb.
  - intros r Hr.
    destruct (resample_covers itz aggregation_level LabelRight ncols _ _ Hr)
      as (l & Hl & Hin).
    eexists. split; [exact Hl|]. simpl. split; [lia|].
    intros b' Hb' Hin'.
    eapply (resample_bins_disjoint itz aggregation_level LabelRight _ _ _ _ (time r));
      [done..|].
    simpl. lia.
Qed.

(** C1, as stated, fails: a reading at 13:00 sharp, cadence one hour, ends in
    the bucket labelled 14:00, and the readings of (13:00, 14:00] are none. *)
Lemma C1_boundary_reading_goes_to_next_bucket :
  aggregate_device (Some UTC) one_hour 1 on_the_hour "X1" =
    [ mkReading (new_year_2024 + 14 * NANOS_PER_HOUR) "X1" [Some 10%Q] ] ∧
  ¬ summarizes_right_closed (Some UTC) one_hour 1 on_the_hour "X1".
Proof.
  assert (Hev : aggregate_device (Some UTC) one_hour 1 on_the_hour "X1" =
    [ mkReading (new_year_2024 + 14 * NANOS_PER_HOUR) "X1" [Some 10%Q] ])
    by (vm_compute; reflexivity).
  split; [exact Hev|].
  intros Hclaim.
  specialize (Hclaim (mkReading (new_year_2024 + 14 * NANOS_PER_HOUR) "X1" [Some 10%Q])).
  rewrite Hev in Hclaim. specialize (Hclaim ltac:(left)).
  vm_compute in Hclaim. discriminate Hclaim.
Qed.

(** ** The output monad *)

Lemma outcome_bind {A B : Type} (m : M A) (f : A → M B) :
  outcome (m ≫= f) =
  match outcome m with
  | inl e => inl e
  | inr a => outcome (f a)
  end.
Proof.
  destruct m as [out [e|a]]; simpl; [done|].
  unfold outcome. simpl. by destruct (f a).
Qed.

Lemma printed_bind {A B : Type} (m : M A) (f : A → M B) :
  printed (m ≫= f) =
  match outcome m with
  | inl e => printed m
  | inr a => printed m ++ printed (f a)
  end.
Proof.
  destruct m as [out [e|a]]; simpl; [done|].
  unfold printed. simpl. by destruct (f a).
Qed.

Lemma outcome_ret {A : Type} (a : A) : outcome (mret a : M A) = inr a.
Proof. reflexivity. Qed.

Lemma outcome_print (ev : event) : outcome (print ev) = inr ().
Proof. reflexivity. Qed.

Lemma filter_Forall_nil {A : Type} (P : A → Prop) `{∀ x, Decision (P x)} (l : list A) :
  (∀ x, x ∈ l → ¬ P x) → filter P l = [].
Proof.
  induction l as [|x l IH]; intros Hall; [done|].
  rewrite filter_cons_False by (apply Hall; left).
  apply IH. intros y Hy. apply Hall. by right.
Qed.

Lemma filter_Forall_id {A : Type} (P : A → Prop) `{∀ x, Decision (P x)} (l : list A) :
  Forall P l → filter P l = l.
Proof.
  induction 1 as [|x l Hx _ IH]; [done|].
  by rewrite filter_cons_True, IH.
Qed.

Lemma foldM_cons {A B : Type} (f : A → B → M A) (a : A) (b : B) (l : list B) :
  foldM f a (b :: l) = f a b ≫= λ a', foldM f a' l.
Proof. reflexivity. Qed.

(** ** The dictionary *)

Lemma dict_get_set_eq k v d : dict_get k (dict_set k v d) = Some v.
Proof.
  induction d as [|[k' v'] d IH]; cbn.
  - by destruct (decide (k = k)).
  - destruct (decide (k = k')) as [->|Hne]; cbn.
    + by destruct (decide (k' = k')).
    + by destruct (decide (k = k')).
Qed.

Lemma dict_get_set_ne k k' v d : k ≠ k' → dict_get k' (dict_set k v d) = dict_get k' d.
Proof.
  intros Hne. induction d as [|[k'' v''] d IH]; cbn.
  - by destruct (decide (k' = k)).
  - destruct (decide (k = k'')) as [->|Hne']; cbn.
    + destruct (decide (k' = k'')); [by subst|done].
    + by rewrite IH.
Qed.

Lemma dict_set_keys k v d :
  (dict_set k v d).*1 = if decide (k ∈ d.*1) then d.*1 else d.*1 ++ [k].
Proof.
  induction d as [|[k' v'] d IH]; cbn.
  - destruct (decide (k ∈ [])) as [Hin|]; [by apply elem_of_nil in Hin|done].
  - destruct (decide (k = k')) as [->|Hne]; cbn.
    + destruct (decide (k' ∈ k' :: d.*1)) as [|Hn]; [done|]. destruct Hn. left.
    + rewrite IH. destruct (decide (k ∈ d.*1)) as [Hin|Hnin].
      * destruct (decide (k ∈ k' :: d.*1)) as [|Hn]; [done|]. destruct Hn. by right.
      * destruct (decide (k ∈ k' :: d.*1)) as [[?|?]%elem_of_cons|]; done.
Qed.

Lemma dict_set_NoDup k v d : NoDup d.*1 → NoDup (dict_set k v d).*1.
Proof.
  intros Hnd. rewrite dict_set_keys. case_decide; [done|].
  apply NoDup_app. split_and!; [done| |apply NoDup_singleton].
  intros x Hx ->%list_elem_of_singleton. done.
Qed.

(** ** C2: the installation-window filter *)

Lemma passes_survives dates r : NoDup dates.*1 → passes dates r ↔ survives dates r.
Proof.
  unfold passes, survives. induction dates as [|[k v] dates IH]; simpl.
  - done.
  - intros [Hk Hnd]%NoDup_cons. rewrite Forall_cons. simpl.
    destruct (decide (dev_id r = k)) as [Heq|Hne].
    + subst k.
      assert (Hrest : Forall (λ item, dev_id r ≠ item.1 ∨ index_ge (time r) item.2) dates).
      { apply Forall_forall. intros [k' v'] Hin. left. simpl. intros Heq.
        apply Hk. rewrite Heq. apply list_elem_of_fmap. by exists (k', v'). }
      split; [|by intros; split; [right|]].
      intros [[?|?] _]; done.
    + rewrite (IH Hnd). split; [by intros [_ ?]|]. intros; split; [by left|done].
Qed.

Lemma window_step_outcome itz filtered_df devs device_id cutoff_date :
  outcome (window_step itz (filtered_df, devs) (device_id, cutoff_date)) =
  if comparable itz cutoff_date
  then inr (filter (λ r, dev_id r ≠ device_id ∨ index_ge (time r) cutoff_date) filtered_df,
            if decide (0 < length (filter (λ r, dev_id r = device_id) filtered_df)
                         - length (filter (λ r, dev_id r = device_id ∧
                                                index_ge (time r) cutoff_date) filtered_df))%nat
            then devs ++ [device_id] else devs)
  else inl TypeError.
Proof.
  unfold window_step. destruct (comparable itz cutoff_date); [|done].
  by case_decide.
Qed.

(** The loop stops with [TypeError] at the first cutoff that cannot be
    compared with the index, and otherwise keeps the rows that pass every
    turn. *)
Lemma window_loop_outcome itz dates :
  ∀ filtered_df devs,
    match outcome (foldM (window_step itz) (filtered_df, devs) dates) with
    | inl e => e = TypeError ∧ ¬ Forall (λ item, comparable itz item.2) dates
    | inr st => st.1 = filter (passes dates) filtered_df ∧
                Forall (λ item, comparable itz item.2) dates
    end.
Proof.
  induction dates as [|[k v] dates IH]; intros filtered_df devs.
  - simpl. split; [|constructor].
    symmetry. apply filter_Forall_id, Forall_forall. intros; constructor.
  - rewrite foldM_cons, outcome_bind, window_step_outcome.
    destruct (comparable itz v) eqn:Hkv.
    + match goal with |- context [foldM _ (?rows, ?ds) dates] =>
        specialize (IH rows ds) end.
      destruct (outcome (foldM _ _ dates)) as [e|st].
      * destruct IH as [-> Hn]. split; [done|].
        intros [_ ?]%Forall_cons. done.
      * destruct IH as [-> Hall]. split.
        -- rewrite list_filter_filter. apply list_filter_iff. intros r.
           unfold passes. rewrite Forall_cons. simpl. tauto.
        -- constructor; [|done]. simpl. by rewrite Hkv.
    + split; [done|]. intros [Hc _]%Forall_cons. simpl in Hc.
      by rewrite Hkv in Hc.
Qed.

Lemma window_filter_outcome_cases itz dates filtered_df :
  NoDup dates.*1 →
  match outcome (window_filter itz dates filtered_df) with
  | inl e => e = TypeError ∧ ¬ Forall (λ item, comparable itz item.2) dates
  | inr kept => kept = filter (survives dates) filtered_df ∧
                Forall (λ item, comparable itz item.2) dates
  end.
Proof.
  intros Hnd. unfold window_filter. rewrite outcome_bind.
  pose proof (window_loop_outcome itz dates filtered_df []) as Hloop.
  destruct (outcome (foldM _ _ dates)) as [e|st]; [done|].
  destruct Hloop as [Hst Hall]. simpl. unfold outcome. simpl. split; [|done].
  rewrite Hst. apply list_filter_iff. intros r. by apply passes_survives.
Qed.

Lemma window_filter_outcome itz dates filtered_df :
  NoDup dates.*1 →
  Forall (λ item, comparable itz item.2) dates →
  outcome (window_filter itz dates filtered_df) = inr (filter (survives dates) filtered_df).
Proof.
  intros Hnd Hcmp.
  pose proof (window_filter_outcome_cases itz dates filtered_df Hnd) as Hcases.
  destruct (outcome (window_filter itz dates filtered_df)) as [e|kept].
  - by destruct Hcases as [_ []].
  - by destruct Hcases as [-> _].
Qed.

(** C2: once the loop over the cutoffs has run, a row of the device-filtered
    frame is kept if and only if its device has no cutoff or the row is at or
    after that device's cutoff; and giving device A another cutoff changes
    nothing for the rows of any other device. *)
Theorem C2_window_filter_is_per_device (itz : option tzinfo) (dates : dict)
    (filtered_df : list Reading) :
  NoDup dates.*1 →
  Forall (λ item, comparable itz item.2) dates →
  outcome (window_filter itz dates filtered_df) =
    inr (filter (λ r, match dict_get (dev_id r) dates with
                      | None => True
                      | Some cutoff => index_ge (time r) cutoff
                      end) filtered_df) ∧
  ∀ A other_cutoff kept kept',
    comparable itz other_cutoff →
    outcome (window_filter itz dates filtered_df) = inr kept →
    outcome (window_filter itz (dict_set A other_cutoff dates) filtered_df) = inr kept' →
    filter (λ r, dev_id r ≠ A) kept' = filter (λ r, dev_id r ≠ A) kept.
Proof.
  intros Hnd Hcmp. split.
  - rewrite window_filter_outcome by done. f_equal.
  - intros A c kept kept' Hc. rewrite !window_filter_outcome; try done.
    + intros [= <-] [= <-]. rewrite !list_filter_filter.
      apply list_filter_iff. intros r. unfold survives.
      destruct (decide (A = dev_id r)) as [->|Hne]; [tauto|].
      by rewrite dict_get_set_ne.
    + by apply dict_set_NoDup.
    + clear -Hcmp Hc. induction dates as [|[k v] dates IH]; simpl.
      * by repeat constructor.
      * apply Forall_cons in Hcmp as [Hkv Hcmp].
        case_decide; constructor; auto.
Qed.

(** ** The metadata registry *)

Section Registry.

Variable to_datetime : string → option Timestamp.

Lemma register_feature_outcome itz dates row :
  outcome (register_feature to_datetime itz dates row) =
    inr (dates_after to_datetime itz dates row).
Proof.
  unfold register_feature, dates_after, stored_cutoff.
  destruct (install_date_of row) as [s|]; simpl; [|done].
  destruct (to_datetime s) as [[|v tz]|]; done.
Qed.

Lemma registry_loop_outcome itz rows :
  ∀ dates, outcome (foldM (register_feature to_datetime itz) dates rows) =
           inr (foldl (dates_after to_datetime itz) dates rows).
Proof.
  induction rows as [|row rows IH]; intros dates; [done|].
  by rewrite foldM_cons, outcome_bind, register_feature_outcome, IH.
Qed.

Lemma registry_loop_printed itz rows :
  ∀ dates, printed (foldM (register_feature to_datetime itz) dates rows) =
           rows ≫= λ row, printed (register_feature to_datetime itz [] row).
Proof.
  induction rows as [|row rows IH]; intros dates; [done|].
  rewrite foldM_cons, printed_bind, register_feature_outcome, IH. simpl.
  f_equal. unfold register_feature.
  destruct (install_date_of row) as [s|]; simpl; [|done].
  destruct (to_datetime s) as [[|v tz]|]; done.
Qed.

Lemma dates_after_NoDup itz dates row :
  NoDup dates.*1 → NoDup (dates_after to_datetime itz dates row).*1.
Proof.
  unfold dates_after. destruct (stored_cutoff to_datetime itz row); [|done].
  apply dict_set_NoDup.
Qed.

(** The parsed installation dates form a dictionary: one entry per key. *)
Lemma registry_NoDup itz rows :
  ∀ dates, NoDup dates.*1 → NoDup (foldl (dates_after to_datetime itz) dates rows).*1.
Proof.
  induction rows as [|row rows IH]; intros dates Hnd; [done|].
  simpl. by apply IH, dates_after_NoDup.
Qed.

(** A device that no row gives a cutoff keeps the entry it had. *)
Lemma registry_untouched itz rows k :
  ∀ dates,
    (∀ row, row ∈ rows → id row = k → stored_cutoff to_datetime itz row = None) →
    dict_get k (foldl (dates_after to_datetime itz) dates rows) = dict_get k dates.
Proof.
  induction rows as [|row rows IH]; intros dates Hk; [done|].
  simpl. rewrite IH by (intros; apply Hk; [by right|done]).
  unfold dates_after. destruct (stored_cutoff to_datetime itz row) as [c|] eqn:Hc; [|done].
  apply dict_get_set_ne. intros Heq.
  rewrite (Hk row) in Hc; [done|left|done].
Qed.

(** On a timezone-aware index every stored cutoff is aware or [NaT], so the
    window filter can compare it with the index. *)
Lemma cutoff_of_comparable tz ts : comparable (Some tz) (cutoff_of (Some tz) ts).
Proof.
  unfold cutoff_of, match_index_tz.
  destruct ts as [|v [ctz|]]; simpl; try case_decide; simpl;
    first [done | apply bool_decide_pack; split; eauto].
Qed.

Lemma dict_set_Forall (P : Timestamp → Prop) k v (d : dict) :
  P v → Forall (λ item, P item.2) d → Forall (λ item, P item.2) (dict_set k v d).
Proof.
  intros Hv. induction 1 as [|[k' v'] d Hx Hd IH]; cbn.
  - by repeat constructor.
  - destruct (decide (k = k')); constructor; done.
Qed.

Lemma registry_comparable tz rows :
  ∀ dates,
    Forall (λ item, comparable (Some tz) item.2) dates →
    Forall (λ item, comparable (Some tz) item.2)
           (foldl (dates_after to_datetime (Some tz)) dates rows).
Proof.
  induction rows as [|row rows IH]; intros dates Hall; [done|].
  simpl. apply IH. unfold dates_after.
  destruct (stored_cutoff to_datetime (Some tz) row) as [c|] eqn:Hc; [|done].
  apply (dict_set_Forall (λ ts, comparable (Some tz) ts)); [|done].
  unfold stored_cutoff in Hc.
  destruct (install_date_of row) as [s|]; simpl in Hc; [|done].
  destruct (to_datetime s) as [ts|]; simpl in Hc; [|done].
  injection Hc as <-. apply cutoff_of_comparable.
Qed.

(** On a timezone-aware index the window filter never raises on the cutoffs
    the registry has parsed, whatever the metadata. *)
Lemma window_filter_on_aware_index tz rows filtered_df :
  let dates := foldl (dates_after to_datetime (Some tz)) [] rows in
  outcome (window_filter (Some tz) dates filtered_df) =
    inr (filter (survives dates) filtered_df).
Proof.
  intros dates. apply window_filter_outcome.
  - apply registry_NoDup. constructor.
  - apply registry_comparable. constructor.
Qed.

(** ** How a cutoff is derived *)

(** X24: on a timezone-aware raw index, the install date of a metadata
    record is its [Date_installed] value if present, else its
    [Asennettu_pvm] value; when that value parses, the record stores for its
    device the parsed date plus one day, localized to UTC if it is naive and
    converted to the index's timezone otherwise, which is the cutoff the
    specification derives; a record with neither field stores nothing. *)
Theorem cutoff_on_aware_index (tz : tzinfo) (dates : dict) (row : Feature) :
  (Date_installed row = None → Asennettu_pvm row = None →
     outcome (register_feature to_datetime (Some tz) dates row) = inr dates) ∧
  (∀ install_date install_datetime,
     Date_installed row = Some install_date ∨
       (Date_installed row = None ∧ Asennettu_pvm row = Some install_date) →
     to_datetime install_date = Some install_datetime →
     let cutoff_date := add_days install_datetime 1 in
     let normalized :=
       match ts_tz cutoff_date with
       | None => tz_localize UTC cutoff_date
       | Some _ => tz_convert tz cutoff_date
       end in
     outcome (register_feature to_datetime (Some tz) dates row) =
       inr (dict_set (id row) normalized dates) ∧
     dict_get (id row) (dict_set (id row) normalized dates) = Some normalized) ∧
  derives_claimed_cutoff to_datetime (Some tz) row.
Proof.
  assert (Hnorm : ∀ ts,
            cutoff_of (Some tz) ts =
            match ts_tz (add_days ts 1) with
            | None => tz_localize UTC (add_days ts 1)
            | Some _ => tz_convert tz (add_days ts 1)
            end).
  { intros ts. unfold cutoff_of, match_index_tz.
    destruct (add_days ts 1) as [|v [ctz|]]; simpl; [done| |done].
    case_decide as Hctz; [done|]. by subst. }
  split_and!.
  - intros H1 H2. rewrite register_feature_outcome.
    unfold dates_after, stored_cutoff, install_date_of. by rewrite H1, H2.
  - intros s ts Hfield Hparse cutoff_date normalized.
    split; [|apply dict_get_set_eq].
    rewrite register_feature_outcome.
    assert (Hs : install_date_of row = Some s).
    { unfold install_date_of. destruct Hfield as [->|[-> ->]]; done. }
    unfold dates_after, stored_cutoff. rewrite Hs. simpl. rewrite Hparse. simpl.
    do 2 f_equal. apply Hnorm.
  - intros s ts Hs Hparse.
    assert (Hc : cutoff_of (Some tz) ts = claimed_cutoff (Some tz) ts).
    { rewrite Hnorm. unfold claimed_cutoff.
      by destruct (add_days ts 1) as [|v [ctz|]]. }
    rewrite register_feature_outcome.
    unfold dates_after, stored_cutoff. rewrite Hs. simpl. rewrite Hparse.
    exact (f_equal (λ c, inr [(id row, c)]) Hc).
Qed.

(** ** An installation date the parser refuses *)

(** X25: when a record's install-date value is present and [pd.to_datetime]
    raises on it, the record stores no cutoff and changes no other device's
    cutoff, a parse error is printed for the device, the loop goes on over
    the remaining records with the result it would have without this
    record, and a device that gets no cutoff from another record has all
    its rows kept by the window filter. *)
Theorem raising_parse_is_local (itz : option tzinfo) (pre post : list Feature)
    (row : Feature) (install_date : string) :
  install_date_of row = Some install_date →
  to_datetime install_date = None →
  (∀ dates, register_feature to_datetime itz dates row =
             ([InstallDateError (id row) install_date], inr dates)) ∧
  outcome (parse_install_dates to_datetime itz (pre ++ row :: post)) =
    outcome (parse_install_dates to_datetime itz (pre ++ post)) ∧
  InstallDateError (id row) install_date
    ∈ printed (parse_install_dates to_datetime itz (pre ++ row :: post)) ∧
  (∀ dates filtered_df kept,
     outcome (parse_install_dates to_datetime itz (pre ++ row :: post)) = inr dates →
     id row ∉ id <$> pre ++ post →
     outcome (window_filter itz dates filtered_df) = inr kept →
     dict_get (id row) dates = None ∧
     filter (λ r, dev_id r = id row) kept =
       filter (λ r, dev_id r = id row) filtered_df).
Proof.
  intros Hs Hparse.
  assert (Hstep : ∀ dates, register_feature to_datetime itz dates row =
             ([InstallDateError (id row) install_date], inr dates)).
  { intros dates. unfold register_feature. by rewrite Hs, Hparse. }
  assert (Hnone : stored_cutoff to_datetime itz row = None).
  { unfold stored_cutoff. rewrite Hs. simpl. by rewrite Hparse. }
  assert (Hsame : foldl (dates_after to_datetime itz) [] (pre ++ row :: post) =
                  foldl (dates_after to_datetime itz) [] (pre ++ post)).
  { rewrite !foldl_app. simpl. unfold dates_after at 2. by rewrite Hnone. }
  split_and!.
  - exact Hstep.
  - unfold parse_install_dates. by rewrite !registry_loop_outcome, Hsame.
  - unfold parse_install_dates. rewrite registry_loop_printed.
    apply list_elem_of_bind. exists row. split.
    + rewrite Hstep. left.
    + apply elem_of_app. right. left.
  - intros dates filtered_df kept Hdates Hfresh Hkept.
    unfold parse_install_dates in Hdates.
    rewrite registry_loop_outcome in Hdates. injection Hdates as <-.
    assert (Hget : dict_get (id row) (foldl (dates_after to_datetime itz) [] (pre ++ row :: post)) = None).
    { rewrite registry_untouched; [done|].
      intros row' [Hin|[->|Hin]%elem_of_cons]%elem_of_app Hid; [|done|].
      - destruct Hfresh. rewrite <- Hid. apply list_elem_of_fmap.
        exists row'. split; [done|]. apply elem_of_app. by left.
      - destruct Hfresh. rewrite <- Hid. apply list_elem_of_fmap.
        exists row'. split; [done|]. apply elem_of_app. by right. }
    split; [done|].
    pose proof (window_filter_outcome_cases itz _ filtered_df
                  (registry_NoDup itz (pre ++ row :: post) [] (NoDup_nil_2)))
      as Hcases.
    rewrite Hkept in Hcases. destruct Hcases as [-> _].
    rewrite list_filter_filter. apply list_filter_iff. intros r.
    unfold survives. split; [tauto|]. intros Hr. split; [done|].
    by rewrite Hr, Hget.
Qed.

End Registry.

(** ** C7: a cutoff with an offset on a naive index *)

(** C7 at its failing input: a raw frame with a timezone-naive index and a
    record whose install date carries a UTC offset.  The stored cutoff keeps
    the offset it was parsed with, where the claim converts it to the
    index's timezone (here: none); comparing it with the naive index then
    stops the run with [TypeError]. *)
Theorem C7_naive_index_leaves_cutoff_aware :
  outcome (register_feature sample_to_datetime None [] installed_with_offset) =
    inr [("X1", Stamp (19725 * NANOS_PER_DAY - 2 * NANOS_PER_HOUR)
                      (Some (2 * NANOS_PER_HOUR)))] ∧
  claimed_cutoff None (Stamp (19724 * NANOS_PER_DAY - 2 * NANOS_PER_HOUR)
                             (Some (2 * NANOS_PER_HOUR))) =
    Stamp (19725 * NANOS_PER_DAY - 2 * NANOS_PER_HOUR) None ∧
  ¬ derives_claimed_cutoff sample_to_datetime None installed_with_offset ∧
  outcome (save_aggregated_data sample_to_datetime naive_raw x1_with_offset one_hour) =
    inl TypeError.
Proof.
  split_and!; [by vm_compute|by vm_compute| |by vm_compute].
  intros Hclaim.
  specialize (Hclaim "2024-01-02T00:00:00+02:00"
                (Stamp (19724 * NANOS_PER_DAY - 2 * NANOS_PER_HOUR)
                       (Some (2 * NANOS_PER_HOUR)))
                eq_refl eq_refl).
  vm_compute in Hclaim. discriminate Hclaim.
Qed.

(** ** The device pipeline as a whole *)

Section DevicePipelineFacts.

Variable to_datetime : string → option Timestamp.
Context `{ArgSort}.

Lemma aggregate_devices_outcome itz freq ncols filtered_df :
  outcome (aggregate_devices itz freq ncols filtered_df) =
    inr (aggregated_rows itz freq ncols filtered_df).
Proof.
  unfold aggregate_devices, aggregated_rows, partitions.
  by destruct (filter _ _).
Qed.

Lemma save_outcome valid_device_ids aggregated_df :
  outcome (save valid_device_ids aggregated_df) =
    inr (written_file valid_device_ids aggregated_df).
Proof. by destruct aggregated_df. Qed.

(** What a run of [save_aggregated_data] ends with. *)
Lemma save_aggregated_data_outcome df gdf freq :
  let dates := foldl (dates_after to_datetime (index_tz df)) [] (features gdf) in
  let valid_device_ids : gset string := list_to_set (id <$> features gdf) in
  let filtered_df := filter (λ r, dev_id r ∈ valid_device_ids) (rows df) in
  outcome (save_aggregated_data to_datetime df gdf freq) =
    if decide ("dev-id" ∉ columns df) then inl KeyError
    else if decide ("id" ∉ gcolumns gdf) then inl KeyError
    else if decide (rows df = []) then inl ZeroDivisionError
    else if decide (filtered_df = []) then inl ValueError
    else match outcome (window_filter (index_tz df) dates filtered_df) with
         | inl e => inl e
         | inr kept =>
             let aggregated_df :=
               match numeric_columns df with
               | [] => kept
               | cols => aggregated_rows (index_tz df) freq (length cols) kept
               end in
             inr (aggregated_df, written_file valid_device_ids aggregated_df)
         end.
Proof.
  cbv zeta. unfold save_aggregated_data.
  case_decide; [done|]. case_decide; [done|].
  rewrite outcome_bind. unfold parse_install_dates.
  rewrite registry_loop_outcome, outcome_bind, outcome_print, outcome_bind.
  destruct (rows df) as [|r0 rs] eqn:Hrows; [done|].
  destruct (decide (r0 :: rs = [])); [done|].
  change (length (r0 :: rs)) with (S (length rs)). unfold py_truediv.
  rewrite outcome_ret, outcome_bind, outcome_print.
  case_decide; [done|].
  rewrite outcome_bind.
  destruct (outcome (window_filter _ _ _)) as [e|kept]; [done|].
  rewrite outcome_bind.
  destruct (numeric_columns df) as [|col cols] eqn:Hcols.
  - by rewrite outcome_bind, outcome_print, outcome_ret, outcome_bind, save_outcome.
  - by rewrite aggregate_devices_outcome, outcome_bind, save_outcome.
Qed.

(** ** C3 and C10: the empty-overlap check *)

(** When the raw frame has rows and none of them belongs to a device of the
    metadata, the run stops with [ValueError] and writes nothing. *)
Lemma no_matching_devices_raises_ValueError df gdf freq :
  "dev-id" ∈ columns df →
  "id" ∈ gcolumns gdf →
  rows df ≠ [] →
  (∀ r, r ∈ rows df → dev_id r ∉ id <$> features gdf) →
  outcome (save_aggregated_data to_datetime df gdf freq) = inl ValueError.
Proof.
  intros Hdev Hid Hrows Hnone. rewrite save_aggregated_data_outcome.
  rewrite !decide_False by (try done; by intros []).
  rewrite decide_True; [done|].
  apply filter_Forall_nil. intros r Hr. rewrite elem_of_list_to_set.
  by apply Hnone.
Qed.

(** C10: on a raw frame that has the device-id column and no rows, with
    metadata that has the id column, the run stops with
    [ZeroDivisionError], raised while the retained fraction is formatted,
    before the empty-overlap check; the error is therefore not the
    documented [ValueError], and the report line itself is never printed. *)
Theorem C10_empty_raw_input_divides_by_zero (df : DataFrame) (gdf : GeoDataFrame)
    (aggregation_level : positive) :
  "dev-id" ∈ columns df →
  "id" ∈ gcolumns gdf →
  rows df = [] →
  outcome (save_aggregated_data to_datetime df gdf aggregation_level)
    = inl ZeroDivisionError ∧
  outcome (save_aggregated_data to_datetime df gdf aggregation_level)
    ≠ inl ValueError ∧
  ∀ original filtered percent,
    Retained original filtered percent
      ∉ printed (save_aggregated_data to_datetime df gdf aggregation_level).
Proof.
  intros Hdev Hid Hrows.
  assert (Hout : outcome (save_aggregated_data to_datetime df gdf aggregation_level)
                 = inl ZeroDivisionError).
  { rewrite save_aggregated_data_outcome.
    rewrite !decide_False by (by intros []). by rewrite decide_True. }
  split_and!; [done|by rewrite Hout|].
  intros original filtered percent.
  unfold save_aggregated_data.
  rewrite !decide_False by (by intros []).
  rewrite printed_bind. unfold parse_install_dates.
  rewrite registry_loop_outcome, registry_loop_printed.
  rewrite printed_bind. simpl outcome at 1. cbv iota.
  rewrite printed_bind, Hrows. simpl.
  rewrite elem_of_app, list_elem_of_bind.
  intros [(row & Hin & _)|Hin].
  - unfold register_feature in Hin.
    destruct (install_date_of row) as [s|]; simpl in Hin.
    + destruct (to_datetime s) as [[|v tz]|]; simpl in Hin;
        apply list_elem_of_singleton in Hin; discriminate Hin.
    + apply list_elem_of_singleton in Hin; discriminate Hin.
  - apply list_elem_of_singleton in Hin. discriminate Hin.
Qed.

End DevicePipelineFacts.

(** ** Membership facts for the stages *)

Lemma elem_of_concat {A : Type} (x : A) (ls : list (list A)) :
  x ∈ concat ls ↔ ∃ l, x ∈ l ∧ l ∈ ls.
Proof.
  induction ls as [|l ls IH]; simpl.
  - split; [by intros ?%elem_of_nil|]. by intros (l & _ & ?%elem_of_nil).
  - rewrite elem_of_app, IH. split.
    + intros [Hx|(l' & Hx & Hl')]; [exists l; split; [done|left]|].
      exists l'. split; [done|by right].
    + intros (l' & Hx & [->|Hl']%elem_of_cons); [by left|]. right. eauto.
Qed.

Lemma unique_from_elem seen l x : x ∈ unique_from seen l → x ∈ l.
Proof.
  revert seen. induction l as [|y l IH]; intros seen; simpl; [done|].
  case_decide.
  - intros Hx. right. by eapply IH.
  - intros [->|Hx]%elem_of_cons; [left|right]. by eapply IH.
Qed.

Lemma unique_elem l x : x ∈ unique l → x ∈ l.
Proof. apply unique_from_elem. Qed.

Lemma sort_index_perm `{ArgSort} {A : Type} (key : A → Z) (l : list A) :
  sort_index key l ≡ₚ l.
Proof. unfold sort_index. destruct (is_monotonic_increasing key l); [done|apply argsort_perm]. Qed.

Lemma sort_index_sorted `{ArgSort} {A : Type} (key : A → Z) (l : list A) :
  Sorted (key_le key) (sort_index key l).
Proof.
  unfold sort_index, is_monotonic_increasing. case_bool_decide; [done|apply argsort_sorted].
Qed.

Lemma window_filter_kept itz dates filtered_df kept :
  outcome (window_filter itz dates filtered_df) = inr kept →
  kept = filter (passes dates) filtered_df.
Proof.
  unfold window_filter. rewrite outcome_bind.
  pose proof (window_loop_outcome itz dates filtered_df []) as Hloop.
  destruct (outcome (foldM _ _ dates)) as [e|st]; [done|].
  destruct Hloop as [Hst _]. rewrite outcome_bind, outcome_print, outcome_ret.
  by intros [= <-].
Qed.

Lemma aggregated_rows_elem `{ArgSort} itz freq ncols filtered_df r :
  r ∈ aggregated_rows itz freq ncols filtered_df →
  ∃ device_id, device_id ∈ dev_id <$> filtered_df ∧
               r ∈ aggregate_device itz freq ncols filtered_df device_id.
Proof.
  unfold aggregated_rows.
  destruct (partitions itz freq ncols filtered_df) as [|p ps] eqn:Hparts;
    [by intros ?%elem_of_nil|].
  rewrite sort_index_perm, <- Hparts. unfold partitions.
  intros (part & Hr & Hpart)%elem_of_concat.
  apply list_elem_of_filter in Hpart as [_ Hpart].
  apply list_elem_of_fmap in Hpart as (device_id & -> & Hd).
  exists device_id. split; [by apply unique_elem|done].
Qed.

(** ** The category set *)

Lemma sorted_ids_elem (ids : gset string) x : x ∈ sorted_ids ids ↔ x ∈ ids.
Proof. unfold sorted_ids. by rewrite merge_sort_Permutation, elem_of_elements. Qed.

Lemma sorted_ids_NoDup (ids : gset string) : NoDup (sorted_ids ids).
Proof. unfold sorted_ids. rewrite merge_sort_Permutation. apply NoDup_elements. Qed.

Lemma sorted_ids_sorted (ids : gset string) : StronglySorted String.le (sorted_ids ids).
Proof. apply (StronglySorted_merge_sort _). Qed.

(** ** C4: device ids of the output *)

Section DeviceIds.

Variable to_datetime : string → option Timestamp.
Context `{ArgSort}.

(** C4: every row of the aggregated frame carries a device id of the
    metadata; the written file's device-id column is categorical, its
    categories being the metadata ids without repetition in ascending
    order, and every cell of the column holds its row's id, none of them
    null. *)
Theorem C4_output_ids_are_metadata_ids (df : DataFrame) (gdf : GeoDataFrame)
    (aggregation_level : positive) (aggregated_df : list Reading)
    (written : option Artifact) :
  outcome (save_aggregated_data to_datetime df gdf aggregation_level)
    = inr (aggregated_df, written) →
  (∀ r, r ∈ aggregated_df → dev_id r ∈ id <$> features gdf) ∧
  (∀ file, written = Some file →
     StronglySorted String.le (categories file) ∧
     NoDup (categories file) ∧
     (∀ x, x ∈ categories file ↔ x ∈ id <$> features gdf) ∧
     art_rows file = (λ r, (time r, Some (dev_id r), cells r)) <$> aggregated_df).
Proof.
  rewrite save_aggregated_data_outcome.
  repeat (case_decide; [done|]).
  destruct (outcome (window_filter _ _ _)) as [e|kept] eqn:Hkept; [done|].
  apply window_filter_kept in Hkept.
  set (valid := list_to_set (id <$> features gdf) : gset string) in *.
  intros [= Hagg Hwritten].
  assert (Hkept_ids : ∀ r, r ∈ kept → dev_id r ∈ id <$> features gdf).
  { intros r. rewrite Hkept, !list_elem_of_filter.
    intros (_ & Hvalid & _). by apply elem_of_list_to_set in Hvalid. }
  assert (Hids : ∀ r, r ∈ aggregated_df → dev_id r ∈ id <$> features gdf).
  { intros r Hr. rewrite <- Hagg in Hr.
    destruct (numeric_columns df) as [|col cols]; [by apply Hkept_ids|].
    apply aggregated_rows_elem in Hr as (device_id & Hd & Hr).
    apply aggregate_device_elem in Hr as (b & _ & -> & _). simpl.
    apply list_elem_of_fmap in Hd as (r' & -> & Hr'). by apply Hkept_ids. }
  split; [exact Hids|].
  intros file Hfile. rewrite Hagg in Hwritten. rewrite Hfile in Hwritten.
  unfold written_file in Hwritten.
  destruct aggregated_df as [|r0 rs] eqn:Hrows; [done|].
  injection Hwritten as Hfile'. rewrite <- Hfile'. unfold encode. cbn [categories art_rows].
  split_and!.
  - apply sorted_ids_sorted.
  - apply sorted_ids_NoDup.
  - intros x. rewrite sorted_ids_elem. apply elem_of_list_to_set.
  - apply Forall_fmap_ext, Forall_forall. intros r Hr.
    unfold astype_category. rewrite decide_True; [done|].
    apply sorted_ids_elem, elem_of_list_to_set. by apply Hids.
Qed.

End DeviceIds.

(** ** C9: the order of the aggregated rows *)

Section OutputOrder.

Context `{ArgSort}.

(** C9, as amended: the partitions' results are concatenated in the order
    in which the devices first appear in the filtered frame and then sorted
    by bucket timestamp alone: the output is a rearrangement of the
    concatenation with non-decreasing timestamps, and it is the
    concatenation itself whenever that is already non-decreasing, so rows
    with equal timestamps are not ordered by device id. *)
Theorem C9_sorted_by_bucket_time_only (itz : option tzinfo)
    (aggregation_level : positive) (ncols : nat) (filtered_df : list Reading) :
  let parts :=
    filter (λ part, part ≠ [])
      (aggregate_device itz aggregation_level ncols filtered_df
         <$> unique (dev_id <$> filtered_df)) in
  ∃ out,
    outcome (aggregate_devices itz aggregation_level ncols filtered_df) = inr out ∧
    out ≡ₚ concat parts ∧
    Sorted (key_le time) out ∧
    (Sorted (key_le time) (concat parts) → out = concat parts).
Proof.
  intros parts. exists (aggregated_rows itz aggregation_level ncols filtered_df).
  split; [apply aggregate_devices_outcome|].
  unfold aggregated_rows, partitions. fold parts.
  destruct parts as [|p ps] eqn:Hparts.
  - split_and!; [done|constructor|done].
  - split_and!; [apply sort_index_perm|apply sort_index_sorted|].
    intros Hsorted. unfold sort_index, is_monotonic_increasing.
    by rewrite bool_decide_eq_true_2.
Qed.

End OutputOrder.

(** C9, as stated, fails: B's row and A's row carry the same bucket
    timestamp, and B's comes first. *)
Lemma C9_ties_keep_partition_order :
  outcome (aggregate_devices (Some UTC) one_hour 1 b_before_a) =
    inr [ mkReading (new_year_2024 + NANOS_PER_HOUR) "B" [Some 10%Q];
          mkReading (new_year_2024 + NANOS_PER_HOUR) "A" [Some 20%Q] ] ∧
  ¬ ties_in_key_order
      [ mkReading (new_year_2024 + NANOS_PER_HOUR) "B" [Some 10%Q];
        mkReading (new_year_2024 + NANOS_PER_HOUR) "A" [Some 20%Q] ].
Proof.
  split; [by vm_compute|].
  intros Hclaim.
  specialize (Hclaim 1%nat 0%nat _ _ eq_refl eq_refl eq_refl).
  assert (1 < 0)%nat; [|lia].
  apply Hclaim; [by vm_compute|done].
Qed.

(** ** C6: empty buckets *)

(** X21: in the device pipeline a bucket is emitted exactly when one of its
    means is non-null, that is, when a reading of its interval has a non-null
    cell in an averaged column. *)
Lemma device_bucket_emitted_iff itz freq ncols filtered_df device_id t vals :
  (t, vals) ∈ resample_mean LabelRight itz freq ncols
                (filter (λ r, dev_id r = device_id) filtered_df) →
  mkReading t device_id vals ∈ aggregate_device itz freq ncols filtered_df device_id ↔
  ∃ r j v, r ∈ bin_rows (t - Z.pos freq) t (filter (λ r, dev_id r = device_id) filtered_df) ∧
           (j < ncols)%nat ∧ cells r !! j = Some (Some v).
Proof.
  intros Hb. rewrite aggregate_device_elem, <- some_mean_nonnull.
  pose proof (resample_right_content _ _ _ _ _ _ Hb) as Hvals.
  split.
  - intros ([t' vals'] & _ & Heq & Hnn). simpl in Heq, Hnn.
    injection Heq as <- <-. by rewrite <- Hvals.
  - intros Hnn. exists (t, vals). split_and!; [done..|]. simpl. by rewrite Hvals.
Qed.

(** C6 at its failing input: the hour from 01:00 holds no reading and its
    temperature mean is null, yet the station pipeline emits the bucket,
    because the [fmisid] cell it has just filled in counts as non-null. *)
Theorem C6_station_emits_empty_bucket :
  outcome (combine_fmi_data [kumpula_with_gap] one_hour) =
    inr (kumpula_with_gap,
         [ mkStationBucket may_day_2024 "Helsinki Kumpula" None
             [Some 101004%Q; Some 10%Q];
           mkStationBucket (may_day_2024 + NANOS_PER_HOUR) "Helsinki Kumpula" None
             [Some 101004%Q; None];
           mkStationBucket (may_day_2024 + 2 * NANOS_PER_HOUR) "Helsinki Kumpula" None
             [Some 101004%Q; Some 20%Q] ]) ∧
  bin_rows (may_day_2024 + NANOS_PER_HOUR) (may_day_2024 + 2 * NANOS_PER_HOUR)
    (numeric_part <$> s_rows kumpula_with_gap) = [].
Proof. split; by vm_compute. Qed.

(** ** C5: the label of a station bucket *)

(** X22: without a numeric [fmisid] column, the station bucket labelled [t]
    carries the means of the station's readings in [[t, t + c)]: the label is
    the left edge. *)
Lemma station_bucket_is_left_labelled df freq station b :
  "fmisid" ∉ s_number_columns df →
  b ∈ aggregate_station df freq station →
  b_station b = station ∧
  b_cells b =
    bin_means (length (s_number_columns df))
      (bin_rows (b_time b) (b_time b + Z.pos freq)
         (numeric_part <$> filter (λ r, Station r = station) (s_rows df))).
Proof.
  intros Hnum. unfold aggregate_station.
  set (data := filter (λ r, Station r = station) (s_rows df)).
  set (resampled := resample_mean LabelLeft _ _ _ _).
  assert (Hset : ∀ first_row b',
            b_cells (set_fmisid (s_number_columns df) first_row b') = b_cells b' ∧
            b_time (set_fmisid (s_number_columns df) first_row b') = b_time b' ∧
            b_station (set_fmisid (s_number_columns df) first_row b') = b_station b').
  { intros first_row b'. unfold set_fmisid.
    destruct (list_find _ _) as [[i col]|] eqn:Hfind; [|done].
    apply list_find_Some in Hfind as (Hi & -> & _).
    destruct Hnum. by eapply list_elem_of_lookup_2. }
  assert (Hbase : ∀ b', b' ∈ (λ p, mkStationBucket p.1 station None p.2) <$> resampled →
            b_station b' = station ∧
            b_cells b' = bin_means (length (s_number_columns df))
              (bin_rows (b_time b') (b_time b' + Z.pos freq) (numeric_part <$> data))).
  { intros b' ([t vals] & -> & Hp)%list_elem_of_fmap. simpl. split; [done|].
    by apply resample_left_content in Hp. }
  rewrite list_elem_of_filter. intros [_ Hb].
  case_decide; [|by apply Hbase].
  destruct data as [|first_row rest]; [by apply Hbase|].
  apply list_elem_of_fmap in Hb as (b' & -> & Hb').
  destruct (Hset first_row b') as (-> & -> & ->). by apply Hbase.
Qed.

(** C5 at its failing input: the readings of 00:10 and 00:40 end in a bucket
    labelled 00:00, the left edge of the hour, where the device pipeline
    would label it 01:00. *)
Theorem C5_station_bucket_labelled_at_left_edge :
  outcome (combine_fmi_data [kumpula_half_hours] one_hour) =
    inr (mkStationFrame (Some UTC) ["Station"; "Air temperature"] ["Air temperature"]
           (take 2 (s_rows kumpula_half_hours)),
         [ mkStationBucket may_day_2024 "Helsinki Kumpula" None [Some 15%Q] ]) ∧
  resample_mean LabelRight (Some UTC) one_hour 1
    (numeric_part <$> take 2 (s_rows kumpula_half_hours)) =
    [ (may_day_2024 + NANOS_PER_HOUR, [Some 15%Q]) ].
Proof. split; by vm_compute. Qed.

(** ** C3: the error raised on an empty overlap *)

(** C3 at its failing input: no raw row at all, hence no overlap with the
    metadata, and the run stops with [ZeroDivisionError], not with the
    [ValueError] that announces an empty overlap. *)
Theorem C3_empty_raw_frame_raises_ZeroDivisionError :
  filter (λ r, dev_id r ∈ id <$> features one_device) (rows empty_raw) = [] ∧
  outcome (save_aggregated_data sample_to_datetime empty_raw one_device one_hour)
    = inl ZeroDivisionError.
Proof. split; by vm_compute. Qed.

(** ** A missing value returned by the parser *)

Lemma dict_set_elem k v (d : dict) : (k, v) ∈ dict_set k v d.
Proof.
  induction d as [|[k' v'] d IH]; cbn; [left|].
  destruct (decide (k = k')); [left|by right].
Qed.

(** X23: when [pd.to_datetime] returns [NaT] (as it does for an empty string)
    the record prints the parse error and yet stores [NaT] as the device's
    cutoff, the assignment coming before the report that fails; the window
    filter run on that dictionary returns no row of the device, and where it
    returned without the record it now returns the same rows less those of
    the device. *)
Lemma nat_cutoff_drops_the_device (to_datetime : string → option Timestamp)
    (itz : option tzinfo) (dates : dict) (row : Feature) (install_date : string)
    (filtered_df : list Reading) :
  install_date_of row = Some install_date →
  to_datetime install_date = Some NaT →
  NoDup dates.*1 →
  register_feature to_datetime itz dates row =
    ([InstallDateError (id row) install_date], inr (dict_set (id row) NaT dates)) ∧
  (∀ kept',
     outcome (window_filter itz (dict_set (id row) NaT dates) filtered_df) = inr kept' →
     ∀ r, r ∈ kept' → dev_id r ≠ id row) ∧
  (∀ kept,
     outcome (window_filter itz dates filtered_df) = inr kept →
     outcome (window_filter itz (dict_set (id row) NaT dates) filtered_df) =
       inr (filter (λ r, dev_id r ≠ id row) kept)).
Proof.
  intros Hs Hparse Hnd. split_and!.
  - unfold register_feature. rewrite Hs, Hparse.
    unfold cutoff_of, match_index_tz. by destruct itz.
  - intros kept' Hkept' r Hr Heq.
    apply window_filter_kept in Hkept'. subst kept'.
    apply list_elem_of_filter in Hr as [Hpass _].
    unfold passes in Hpass. rewrite Forall_forall in Hpass.
    destruct (Hpass _ (dict_set_elem (id row) NaT dates)) as [Hne|Hge]; done.
  - intros kept Hkept.
    pose proof (window_filter_outcome_cases itz dates filtered_df Hnd) as Hcases.
    rewrite Hkept in Hcases. destruct Hcases as [-> Hcmp].
    rewrite window_filter_outcome.
    + f_equal. rewrite list_filter_filter. apply list_filter_iff. intros r.
      unfold survives. destruct (decide (id row = dev_id r)) as [Heq|Hne].
      * rewrite <- Heq, dict_get_set_eq. simpl. split; [done|by intros [? _]].
      * rewrite dict_get_set_ne by done. split; [by split|by intros [_ ?]].
    + by apply dict_set_NoDup.
    + by apply (dict_set_Forall (λ ts, comparable itz ts)).
Qed.

(** ** C8: an empty installation date *)

(** C8 at its failing input: the one record of the metadata carries the
    empty string as install date.  The parse error is printed for the
    device, and yet the device does not go on without a cutoff: [NaT] is
    stored for it, the window filter drops both of its rows and the run
    writes nothing, where the same readings under a record without install
    date give the device's hourly bucket. *)
Theorem C8_blank_install_date_drops_the_device :
  parse_install_dates sample_to_datetime (Some UTC) (features x1_blank) =
    ([InstallDateError "X1" ""], inr [("X1", NaT)]) ∧
  outcome (window_filter (Some UTC) [("X1", NaT)] (rows half_hours_raw)) = inr [] ∧
  outcome (window_filter (Some UTC) [] (rows half_hours_raw)) =
    inr (rows half_hours_raw) ∧
  outcome (save_aggregated_data sample_to_datetime half_hours_raw x1_blank one_hour) =
    inr ([], None) ∧
  outcome (save_aggregated_data sample_to_datetime half_hours_raw x1_undated one_hour) =
    inr ([ mkReading (new_year_2024 + NANOS_PER_HOUR) "X1" [Some 15%Q] ],
         Some (mkArtifact ["X1"]
                 [(new_year_2024 + NANOS_PER_HOUR, Some "X1", [Some 15%Q])])).
Proof. split_and!; by vm_compute. Qed.

(** * Worked inputs *)

Example three_devices_run :
  outcome (save_aggregated_data sample_to_datetime three_devices_raw one_device one_hour) =
    inr ([x1_bucket],
         Some (mkArtifact ["X1"]
                 [(new_year_2024 + 3 * NANOS_PER_DAY + NANOS_PER_HOUR,
                   Some "X1", [Some 15%Q])])).
Proof. by vm_compute. Qed.

(** Two readings within one hour give one row, labelled with the end of the
    hour and carrying their mean. *)
Example one_hourly_mean :
  outcome (save_aggregated_data sample_to_datetime half_hours_raw x1_undated one_hour) =
    inr ([ mkReading (new_year_2024 + NANOS_PER_HOUR) "X1" [Some 15%Q] ],
         Some (mkArtifact ["X1"]
                 [(new_year_2024 + NANOS_PER_HOUR, Some "X1", [Some 15%Q])])).
Proof. by vm_compute. Qed.

(** Rows, but none of a known device: the documented [ValueError]. *)
Example no_overlap_raises_ValueError :
  outcome (save_aggregated_data sample_to_datetime half_hours_raw only_z1 one_hour) =
    inl ValueError.
Proof. by vm_compute. Qed.

Lemma C1_witness :
  dev_id (mkReading (new_year_2024 + 14 * NANOS_PER_HOUR) "X1" [Some 10%Q]) = "X1" ∧
  cells (mkReading (new_year_2024 + 14 * NANOS_PER_HOUR) "X1" [Some 10%Q]) =
    bin_means 1
      (bin_rows (new_year_2024 + 14 * NANOS_PER_HOUR - Z.pos one_hour)
         (new_year_2024 + 14 * NANOS_PER_HOUR)
         (filter (λ r, dev_id r = "X1") on_the_hour)).
Proof.
  apply (proj1 (C1_bucket_is_left_closed (Some UTC) one_hour 1 on_the_hour "X1")
           (mkReading (new_year_2024 + 14 * NANOS_PER_HOUR) "X1" [Some 10%Q])).
  vm_compute. left.
Defined.

Lemma C2_witness :
  outcome (window_filter (Some UTC) x1_cutoff (rows three_devices_raw)) =
    inr (filter (λ r, match dict_get (dev_id r) x1_cutoff with
                      | None => True
                      | Some cutoff => index_ge (time r) cutoff
                      end) (rows three_devices_raw)).
Proof.
  apply (C2_window_filter_is_per_device (Some UTC) x1_cutoff (rows three_devices_raw)).
  - apply (bool_decide_unpack _). vm_compute. exact I.
  - apply (bool_decide_unpack _). vm_compute. exact I.
Defined.

Lemma C4_witness :
  (∀ r, r ∈ [x1_bucket] → dev_id r ∈ id <$> features one_device) ∧
  (∀ file,
     Some (mkArtifact ["X1"]
             [(new_year_2024 + 3 * NANOS_PER_DAY + NANOS_PER_HOUR,
               Some "X1", [Some 15%Q])]) = Some file →
     StronglySorted String.le (categories file) ∧
     NoDup (categories file) ∧
     (∀ x, x ∈ categories file ↔ x ∈ id <$> features one_device) ∧
     art_rows file = (λ r, (time r, Some (dev_id r), cells r)) <$> [x1_bucket]).
Proof.
  apply (C4_output_ids_are_metadata_ids sample_to_datetime three_devices_raw
           one_device one_hour).
  vm_compute. reflexivity.
Defined.

Lemma cutoff_on_aware_index_witness :
  outcome (register_feature sample_to_datetime (Some UTC) []
             (mkFeature "X1" (Some "2024-01-02") (Some "2024-06-10"))) =
    inr [("X1", Stamp (19725 * NANOS_PER_DAY) (Some UTC))].
Proof.
  exact (proj1 (proj1 (proj2 (cutoff_on_aware_index sample_to_datetime UTC []
                                (mkFeature "X1" (Some "2024-01-02") (Some "2024-06-10"))))
                  "2024-01-02" (Stamp (19724 * NANOS_PER_DAY) None)
                  (or_introl eq_refl) eq_refl)).
Defined.

Lemma raising_parse_is_local_witness :
  outcome (parse_install_dates sample_to_datetime (Some UTC)
             (features one_device ++ installed_someday :: [])) =
    outcome (parse_install_dates sample_to_datetime (Some UTC)
               (features one_device ++ [])).
Proof.
  apply (raising_parse_is_local sample_to_datetime (Some UTC)
           (features one_device) [] installed_someday "someday");
    reflexivity.
Defined.

Lemma C9_witness :
  ∃ out,
    outcome (aggregate_devices (Some UTC) one_hour 1 b_before_a) = inr out ∧
    out ≡ₚ concat (filter (λ part, part ≠ [])
                    (aggregate_device (Some UTC) one_hour 1 b_before_a
                       <$> unique (dev_id <$> b_before_a))) ∧
    Sorted (key_le time) out ∧
    (Sorted (key_le time)
       (concat (filter (λ part, part ≠ [])
                  (aggregate_device (Some UTC) one_hour 1 b_before_a
                     <$> unique (dev_id <$> b_before_a)))) →
     out = concat (filter (λ part, part ≠ [])
                     (aggregate_device (Some UTC) one_hour 1 b_before_a
                        <$> unique (dev_id <$> b_before_a)))).
Proof. exact (C9_sorted_by_bucket_time_only (Some UTC) one_hour 1 b_before_a). Defined.

Lemma C10_witness :
  outcome (save_aggregated_data sample_to_datetime empty_raw one_device one_hour)
    = inl ZeroDivisionError.
Proof.
  apply (C10_empty_raw_input_divides_by_zero sample_to_datetime empty_raw
           one_device one_hour).
  - apply (bool_decide_unpack _). vm_compute. exact I.
  - apply (bool_decide_unpack _). vm_compute. exact I.
  - reflexivity.
Defined.


(** * Further properties of the device pipeline *)

Section DeviceRuns.

Variable to_datetime : string → option Timestamp.
Context `{ArgSort}.

(** The five ways a run can end, in the order the code reaches them. *)
Lemma save_aggregated_data_cases df gdf freq :
  let dates := parsed_dates to_datetime df gdf in
  let known := known_rows df gdf in
  outcome (save_aggregated_data to_datetime df gdf freq) =
    if decide ("dev-id" ∉ columns df) then inl KeyError
    else if decide ("id" ∉ gcolumns gdf) then inl KeyError
    else if decide (rows df = []) then inl ZeroDivisionError
    else if decide (known = []) then inl ValueError
    else if decide (Forall (λ item, comparable (index_tz df) item.2) dates)
    then let kept := filter (survives dates) known in
         let aggregated_df :=
           match numeric_columns df with
           | [] => kept
           | cols => aggregated_rows (index_tz df) freq (length cols) kept
           end in
         inr (aggregated_df,
              written_file (list_to_set (id <$> features gdf)) aggregated_df)
    else inl TypeError.
Proof.
  intros dates known. rewrite save_aggregated_data_outcome.
  fold (parsed_dates to_datetime df gdf) (known_rows df gdf). fold dates known.
  repeat (case_decide; [done|]).
  pose proof (window_filter_outcome_cases (index_tz df) dates known
                (registry_NoDup to_datetime _ _ [] NoDup_nil_2)) as Hcases.
  destruct (outcome (window_filter (index_tz df) dates known)) as [e|kept].
  - destruct Hcases as [-> Hn]. by rewrite decide_False.
  - destruct Hcases as [-> Hall]. by rewrite decide_True.
Qed.

(** X1: a run ends with [KeyError] exactly when the raw frame lacks the
    ["dev-id"] column or the metadata lacks the ["id"] column, and it has
    then printed nothing: no metadata row was looked at. *)
Theorem missing_column_is_the_only_KeyError (df : DataFrame) (gdf : GeoDataFrame)
    (aggregation_level : positive) :
  (outcome (save_aggregated_data to_datetime df gdf aggregation_level) = inl KeyError ↔
     "dev-id" ∉ columns df ∨ "id" ∉ gcolumns gdf) ∧
  ("dev-id" ∉ columns df ∨ "id" ∉ gcolumns gdf →
     printed (save_aggregated_data to_datetime df gdf aggregation_level) = []).
Proof.
  split.
  - rewrite save_aggregated_data_cases. repeat case_decide; intuition congruence.
  - unfold save_aggregated_data. repeat case_decide; intuition congruence.
Qed.

(** X2: when both columns are there, the raw frame has rows and none of
    them belongs to a device of the metadata, the run ends with
    [ValueError] right after the report of the retained rows, which counts
    none: after the lines of the metadata loop it has printed the number of
    metadata ids and that report, and nothing else. *)
Theorem rows_without_known_device_raise_ValueError (df : DataFrame)
    (gdf : GeoDataFrame) (aggregation_level : positive) :
  "dev-id" ∈ columns df →
  "id" ∈ gcolumns gdf →
  rows df ≠ [] →
  (∀ r, r ∈ rows df → dev_id r ∉ id <$> features gdf) →
  outcome (save_aggregated_data to_datetime df gdf aggregation_level) = inl ValueError ∧
  ∃ percent,
    (percent == 0)%Q ∧
    printed (save_aggregated_data to_datetime df gdf aggregation_level) =
      printed (parse_install_dates to_datetime (index_tz df) (features gdf)) ++
      [ MetadataIds (size (list_to_set (id <$> features gdf) : gset string));
        Retained (length (rows df)) 0 percent ].
Proof.
  intros Hdev Hid Hrows Hnone.
  assert (Hknown : filter (λ r, dev_id r ∈ (list_to_set (id <$> features gdf) : gset string))
                     (rows df) = []).
  { apply filter_Forall_nil. intros r Hr. rewrite elem_of_list_to_set.
    by apply Hnone. }
  split.
  - rewrite save_aggregated_data_cases.
    rewrite !decide_False by (try done; by intros []).
    by rewrite decide_True.
  - unfold save_aggregated_data.
    rewrite !decide_False by (by intros []).
    rewrite printed_bind. unfold parse_install_dates at 1.
    rewrite registry_loop_outcome. fold (parse_install_dates to_datetime (index_tz df) (features gdf)).
    rewrite Hknown. destruct (rows df) as [|r0 rs]; [done|].
    eexists. split; [|reflexivity]. simpl. reflexivity.
Qed.

End DeviceRuns.

Section DeviceRunsOnCutoffs.

Variable to_datetime : string → option Timestamp.
Context `{ArgSort}.

(** A cutoff cannot be compared with a naive index exactly when it carries a
    timezone. *)
Lemma incomparable_on_naive_index (dates : dict) :
  ¬ Forall (λ item, comparable None item.2) dates ↔
  ∃ device v z, (device, Stamp v (Some z)) ∈ dates.
Proof.
  split.
  - intros Hn. apply not_Forall_Exists in Hn; [|apply _].
    apply Exists_exists in Hn as ([device [|v [z|]]] & Hin & Hc);
      [by destruct Hc|eauto|].
    destruct Hc. unfold comparable. apply bool_decide_pack. split; intros [? ?]; done.
  - intros (device & v & z & Hin) Hall.
    rewrite Forall_forall in Hall. specialize (Hall _ Hin).
    unfold comparable in Hall. cbn [snd] in Hall.
    apply bool_decide_unpack in Hall as [_ Hall].
    destruct Hall as [? ?]; [eauto|done].
Qed.

Lemma known_rows_nonempty (df : DataFrame) (gdf : GeoDataFrame) :
  known_rows df gdf ≠ [] → rows df ≠ [].
Proof. unfold known_rows. intros Hk Hr. by rewrite Hr in Hk. Qed.

(** X3: a run ends with [TypeError] exactly when the raw index is
    timezone-naive, some row belongs to a known device and some device's
    stored cutoff carries a timezone; on a timezone-aware index it never
    does. *)
Theorem TypeError_means_aware_cutoff_on_naive_index (df : DataFrame)
    (gdf : GeoDataFrame) (aggregation_level : positive) :
  outcome (save_aggregated_data to_datetime df gdf aggregation_level) = inl TypeError ↔
    "dev-id" ∈ columns df ∧ "id" ∈ gcolumns gdf ∧
    known_rows df gdf ≠ [] ∧
    index_tz df = None ∧
    ∃ device v z, (device, Stamp v (Some z)) ∈ parsed_dates to_datetime df gdf.
Proof.
  rewrite save_aggregated_data_cases.
  pose proof (known_rows_nonempty df gdf) as Hrows.
  assert (Hcmp : ¬ Forall (λ item, comparable (index_tz df) item.2)
                     (parsed_dates to_datetime df gdf) ↔
                 index_tz df = None ∧
                 ∃ device v z, (device, Stamp v (Some z)) ∈ parsed_dates to_datetime df gdf).
  { unfold parsed_dates. destruct (index_tz df) as [tz|].
    - split; [|by intros [? _]]. intros Hn. destruct Hn.
      apply registry_comparable. constructor.
    - rewrite incomparable_on_naive_index. intuition. }
  rewrite <- Hcmp. repeat case_decide; intuition congruence.
Qed.

(** X4: rows of devices the metadata does not list play no part in the
    result: as long as some row belongs to a known device, the run ends the
    same way, with the same frame and the same file, when those rows are
    removed beforehand. *)
Theorem unknown_devices_do_not_matter (df : DataFrame) (gdf : GeoDataFrame)
    (aggregation_level : positive) :
  known_rows df gdf ≠ [] →
  outcome (save_aggregated_data to_datetime (known_only df gdf) gdf aggregation_level) =
  outcome (save_aggregated_data to_datetime df gdf aggregation_level).
Proof.
  intros Hknown. rewrite !save_aggregated_data_cases.
  pose proof (known_rows_nonempty df gdf Hknown) as Hrows.
  assert (Hidem : known_rows (known_only df gdf) gdf = known_rows df gdf).
  { unfold known_rows at 1. simpl. unfold known_rows.
    rewrite list_filter_filter. apply list_filter_iff. tauto. }
  rewrite Hidem. unfold parsed_dates, numeric_columns. simpl.
  repeat case_decide; done.
Qed.

(** X5: when every row of a known device lies before its device's cutoff,
    the run on a timezone-aware index raises nothing: it returns the empty
    frame and writes no file. *)
Theorem all_rows_before_cutoff_gives_empty_result (df : DataFrame) (gdf : GeoDataFrame)
    (aggregation_level : positive) :
  "dev-id" ∈ columns df →
  "id" ∈ gcolumns gdf →
  is_Some (index_tz df) →
  known_rows df gdf ≠ [] →
  (∀ r, r ∈ known_rows df gdf → ¬ survives (parsed_dates to_datetime df gdf) r) →
  outcome (save_aggregated_data to_datetime df gdf aggregation_level) = inr ([], None).
Proof.
  intros Hdev Hid [tz Htz] Hknown Hbefore. rewrite save_aggregated_data_cases.
  pose proof (known_rows_nonempty df gdf Hknown) as Hrows.
  rewrite !decide_False by (try done; by intros []).
  rewrite decide_True.
  2:{ unfold parsed_dates. rewrite Htz. apply registry_comparable. constructor. }
  rewrite (filter_Forall_nil _ _ Hbefore).
  by destruct (numeric_columns df).
Qed.

(** An emitted bucket holds at least one reading of its device. *)
Lemma bucket_has_reading itz freq ncols filtered_df device_id out :
  out ∈ aggregate_device itz freq ncols filtered_df device_id →
  ∃ r, r ∈ filtered_df ∧ dev_id r = device_id ∧
       time out - Z.pos freq ≤ time r < time out.
Proof.
  intros (b & Hb & -> & Hnn)%aggregate_device_elem. destruct b as [t vals].
  simpl in *. rewrite (resample_right_content _ _ _ _ _ _ Hb) in Hnn.
  apply some_mean_nonnull in Hnn as (r & j & v & Hr & _).
  unfold bin_rows in Hr. apply list_elem_of_filter in Hr as [Htime Hr].
  apply list_elem_of_filter in Hr as [Hd Hr]. eauto.
Qed.

(** X6: in the aggregated frame of a run that resamples, a device with a
    cutoff has only buckets labelled strictly after the cutoff, and a device
    whose cutoff is [NaT] has no bucket at all. *)
Theorem buckets_come_after_the_cutoff (df : DataFrame) (gdf : GeoDataFrame)
    (aggregation_level : positive) (aggregated_df : list Reading)
    (written : option Artifact) :
  numeric_columns df ≠ [] →
  outcome (save_aggregated_data to_datetime df gdf aggregation_level)
    = inr (aggregated_df, written) →
  ∀ out, out ∈ aggregated_df →
    match dict_get (dev_id out) (parsed_dates to_datetime df gdf) with
    | None => True
    | Some NaT => False
    | Some (Stamp cutoff _) => cutoff < time out
    end.
Proof.
  intros Hnum. rewrite save_aggregated_data_cases.
  repeat (case_decide; try done).
  destruct (numeric_columns df) as [|col cols] eqn:Hcols; [done|].
  intros [= <- _] out Hout.
  apply aggregated_rows_elem in Hout as (device_id & _ & Hout).
  destruct (bucket_has_reading _ _ _ _ _ _ Hout) as (r & Hr & Hd & Htime).
  apply aggregate_device_elem in Hout as (b & _ & -> & _). simpl in *.
  apply list_elem_of_filter in Hr as [Hsurv _]. unfold survives in Hsurv.
  rewrite Hd in Hsurv.
  destruct (dict_get device_id _) as [[|cutoff tz]|]; [done| |done].
  simpl in Hsurv. apply bool_decide_unpack in Hsurv. lia.
Qed.

(** X7: when the raw frame has no numeric column besides the device id,
    nothing is resampled: the result is the rows of known devices at or after
    their cutoffs, in their original order and at their original
    timestamps. *)
Theorem without_numeric_columns_rows_pass_through (df : DataFrame) (gdf : GeoDataFrame)
    (aggregation_level : positive) (aggregated_df : list Reading)
    (written : option Artifact) :
  numeric_columns df = [] →
  outcome (save_aggregated_data to_datetime df gdf aggregation_level)
    = inr (aggregated_df, written) →
  aggregated_df =
    filter (λ r, dev_id r ∈ id <$> features gdf ∧
                 survives (parsed_dates to_datetime df gdf) r) (rows df).
Proof.
  intros Hnum. rewrite save_aggregated_data_cases, Hnum.
  repeat (case_decide; try done).
  intros [= <- _]. unfold known_rows. rewrite list_filter_filter.
  apply list_filter_iff. intros r. rewrite elem_of_list_to_set. tauto.
Qed.

End DeviceRunsOnCutoffs.

(** * Further properties of the aggregation *)

Lemma StronglySorted_seq (a n : nat) : StronglySorted lt (seq a n).
Proof.
  revert a. induction n as [|n IH]; intros a; simpl; constructor; [apply IH|].
  apply Forall_forall. intros x Hx%elem_of_seq. lia.
Qed.

Lemma StronglySorted_seqZ (m n : Z) : StronglySorted Z.lt (seqZ m n).
Proof.
  unfold seqZ. eapply StronglySorted_fmap; [|apply StronglySorted_seq].
  intros x y Hxy. simpl. lia.
Qed.

Lemma StronglySorted_filter {A : Type} (R : relation A) (P : A → Prop)
    `{∀ x, Decision (P x)} (l : list A) :
  StronglySorted R l → StronglySorted R (filter P l).
Proof.
  induction 1 as [|x l Hl IH Hx]; [constructor|].
  rewrite filter_cons. case_decide; [|done].
  constructor; [done|]. apply Forall_forall. intros y [_ Hy]%list_elem_of_filter.
  rewrite Forall_forall in Hx. by apply Hx.
Qed.

Lemma StronglySorted_lookup {A : Type} (R : relation A) (l : list A) i j a b :
  StronglySorted R l → l !! i = Some a → l !! j = Some b → (i < j)%nat → R a b.
Proof.
  intros Hl. revert i j. induction Hl as [|x l Hl IH Hx]; intros i j Hi Hj Hij.
  - by rewrite lookup_nil in Hi.
  - destruct j as [|j]; [lia|]. simpl in Hj. destruct i as [|i]; simpl in Hi.
    + injection Hi as ->. rewrite Forall_forall in Hx.
      apply Hx. by eapply list_elem_of_lookup_2.
    + eapply IH; [done..|lia].
Qed.

Lemma resample_mean_spaced lbl itz freq ncols data :
  StronglySorted (λ p q, spaced (Z.pos freq) p.1 q.1)
    (resample_mean lbl itz freq ncols data).
Proof.
  destruct data as [|x rest]; [constructor|]. unfold resample_mean.
  eapply StronglySorted_fmap; [|apply StronglySorted_seqZ].
  intros i j Hij. simpl. unfold spaced. split.
  - destruct lbl; simpl; nia.
  - exists (j - i). destruct lbl; simpl; lia.
Qed.

Lemma aggregate_device_spaced itz freq ncols filtered_df device_id :
  StronglySorted (λ a b, spaced (Z.pos freq) (time a) (time b))
    (aggregate_device itz freq ncols filtered_df device_id).
Proof.
  unfold aggregate_device. apply StronglySorted_filter.
  eapply StronglySorted_fmap; [|apply resample_mean_spaced]. by intros [] [].
Qed.

(** X8: within one device the emitted buckets come in strictly increasing
    label order, and any two labels lie a whole number of cadences apart. *)
Theorem device_buckets_strictly_increase (itz : option tzinfo)
    (aggregation_level : positive) (ncols : nat) (filtered_df : list Reading)
    (device_id : string) (i j : nat) (a b : Reading) :
  aggregate_device itz aggregation_level ncols filtered_df device_id !! i = Some a →
  aggregate_device itz aggregation_level ncols filtered_df device_id !! j = Some b →
  (i < j)%nat →
  time a < time b ∧ (Z.pos aggregation_level | time b - time a).
Proof.
  intros Hi Hj Hij.
  exact (StronglySorted_lookup _ _ _ _ _ _
           (aggregate_device_spaced itz aggregation_level ncols filtered_df device_id)
           Hi Hj Hij).
Qed.

Lemma resample_labels_on_grid lbl itz freq ncols data t vals :
  (Z.pos freq | NANOS_PER_DAY) →
  (Z.pos freq | default 0 itz) →
  (t, vals) ∈ resample_mean lbl itz freq ncols data →
  (Z.pos freq | t).
Proof.
  intros [kd Hday] [ko Hoff] Hb.
  destruct data as [|x rest]; [by apply elem_of_nil in Hb|].
  apply elem_of_resample_mean in Hb as (i & _ & -> & _).
  pose proof (data_within_edges freq x rest x ltac:(left)) as Hx.
  assert (Hle : list_min (time x) (time <$> rest) ≤ list_max (time x) (time <$> rest))
    by lia.
  destruct (edges_grid itz freq _ _ Hle) as (He0 & _).
  rewrite He0. unfold normalize. rewrite Hday, Hoff.
  set (q1 := _ `div` (kd * Z.pos freq)).
  set (q2 := _ `div` Z.pos freq).
  destruct lbl; simpl.
  - exists (q1 * kd - ko + q2 + i). ring.
  - exists (q1 * kd - ko + q2 + i + 1). ring.
Qed.

(** X9: when the cadence divides a day and the index's UTC offset, every
    bucket label is a whole multiple of the cadence since the epoch. *)
Theorem bucket_labels_on_the_cadence_grid (itz : option tzinfo)
    (aggregation_level : positive) (ncols : nat) (filtered_df : list Reading)
    (device_id : string) (out : Reading) :
  (Z.pos aggregation_level | NANOS_PER_DAY) →
  (Z.pos aggregation_level | default 0 itz) →
  out ∈ aggregate_device itz aggregation_level ncols filtered_df device_id →
  (Z.pos aggregation_level | time out).
Proof.
  intros Hday Hoff (b & Hb & -> & _)%aggregate_device_elem.
  destruct b as [t vals]. by eapply resample_labels_on_grid.
Qed.

Lemma StronglySorted_lt_NoDup (l : list Z) : StronglySorted Z.lt l → NoDup l.
Proof.
  induction 1 as [|x l Hl IH Hx]; constructor; [|done].
  intros Hin. rewrite Forall_forall in Hx. specialize (Hx x Hin). lia.
Qed.

Lemma aggregate_device_times_NoDup itz freq ncols filtered_df device_id :
  NoDup (time <$> aggregate_device itz freq ncols filtered_df device_id).
Proof.
  apply StronglySorted_lt_NoDup.
  eapply StronglySorted_fmap; [|apply aggregate_device_spaced].
  by intros a b [? _].
Qed.

Lemma aggregate_device_dev_id itz freq ncols filtered_df device_id out :
  out ∈ aggregate_device itz freq ncols filtered_df device_id → dev_id out = device_id.
Proof. by intros (b & _ & -> & _)%aggregate_device_elem. Qed.

Lemma unique_from_NoDup seen l :
  NoDup (unique_from seen l) ∧ ∀ x, x ∈ unique_from seen l → x ∉ seen.
Proof.
  revert seen. induction l as [|y l IH]; intros seen; simpl.
  - split; [constructor|]. by intros x ?%elem_of_nil.
  - case_decide as Hy; [apply IH|].
    destruct (IH (y :: seen)) as [Hnd Hfresh]. split.
    + constructor; [|done]. intros Hin. apply (Hfresh y Hin). left.
    + intros x [->|Hx]%elem_of_cons; [done|].
      intros Hs. apply (Hfresh x Hx). by right.
Qed.

Lemma unique_NoDup l : NoDup (unique l).
Proof. apply unique_from_NoDup. Qed.

Lemma concat_filter_nonempty {A : Type} (ls : list (list A)) :
  concat (filter (λ part, part ≠ []) ls) = concat ls.
Proof.
  induction ls as [|l ls IH]; [done|].
  rewrite filter_cons. case_decide as Hl; simpl; [by rewrite IH|].
  by rewrite Hl, IH.
Qed.

(** The aggregated frame holds the rows of the devices' partitions, in some
    order. *)
Lemma aggregated_rows_perm `{ArgSort} itz freq ncols filtered_df :
  aggregated_rows itz freq ncols filtered_df ≡ₚ
  concat (aggregate_device itz freq ncols filtered_df <$> unique (dev_id <$> filtered_df)).
Proof.
  rewrite <- concat_filter_nonempty. unfold aggregated_rows, partitions.
  destruct (filter _ _) as [|p ps]; [done|]. apply sort_index_perm.
Qed.

Lemma partitions_keys_NoDup (F : string → list Reading) (devices : list string) :
  NoDup devices →
  (∀ d r, r ∈ F d → dev_id r = d) →
  (∀ d, NoDup (time <$> F d)) →
  NoDup ((λ r, (dev_id r, time r)) <$> concat (F <$> devices)).
Proof.
  intros Hnd Hdev Htimes. induction Hnd as [|d devices Hd Hnd IH]; [constructor|].
  simpl. rewrite fmap_app. apply NoDup_app. split_and!.
  - apply (NoDup_fmap_1 snd). rewrite <- list_fmap_compose. apply Htimes.
  - intros k (r & -> & Hr)%list_elem_of_fmap (r' & Heq & Hr')%list_elem_of_fmap.
    apply elem_of_concat in Hr' as (part & Hr' & Hpart).
    apply list_elem_of_fmap in Hpart as (d' & -> & Hd').
    injection Heq as Heq _. rewrite (Hdev _ _ Hr), (Hdev _ _ Hr') in Heq.
    by subst.
  - exact IH.
Qed.

(** X10: the aggregated frame has at most one row per device and bucket
    label. *)
Theorem one_row_per_device_and_bucket `{ArgSort} (itz : option tzinfo)
    (aggregation_level : positive) (ncols : nat) (filtered_df : list Reading) :
  NoDup ((λ r, (dev_id r, time r))
           <$> aggregated_rows itz aggregation_level ncols filtered_df).
Proof.
  rewrite aggregated_rows_perm.
  apply partitions_keys_NoDup.
  - apply unique_NoDup.
  - intros d r. apply aggregate_device_dev_id.
  - intros d. apply aggregate_device_times_NoDup.
Qed.

Lemma unique_from_agree seen seen' l :
  (∀ x, x ∈ l → (x ∈ seen ↔ x ∈ seen')) →
  unique_from seen l = unique_from seen' l.
Proof.
  revert seen seen'. induction l as [|y l IH]; intros seen seen' Hagree; [done|].
  simpl. pose proof (Hagree y ltac:(left)) as Hy.
  assert (Hrest : ∀ x, x ∈ l → (x ∈ seen ↔ x ∈ seen')).
  { intros x Hx. apply Hagree. by right. }
  repeat case_decide; try tauto.
  - by apply IH.
  - f_equal. apply IH. intros x Hx. rewrite !elem_of_cons, (Hrest x Hx). tauto.
Qed.

Lemma unique_from_app seen l1 l2 :
  unique_from seen (l1 ++ l2) = unique_from seen l1 ++ unique_from (l1 ++ seen) l2.
Proof.
  revert seen. induction l1 as [|y l1 IH]; intros seen; [done|].
  simpl. case_decide as Hy.
  - rewrite IH. f_equal. apply unique_from_agree. intros x _.
    rewrite !elem_of_app, elem_of_cons, elem_of_app. intuition (subst; auto).
  - simpl. rewrite IH. do 2 f_equal. apply unique_from_agree. intros x _.
    rewrite !elem_of_app, !elem_of_cons, elem_of_app. intuition (subst; auto).
Qed.

Lemma unique_app_disjoint l1 l2 :
  (∀ x, x ∈ l1 → x ∉ l2) → unique (l1 ++ l2) = unique l1 ++ unique l2.
Proof.
  intros Hdisj. unfold unique. rewrite unique_from_app. f_equal.
  apply unique_from_agree. intros x Hx. rewrite app_nil_r. split.
  - intros Hx1. by destruct (Hdisj x Hx1).
  - by intros ?%elem_of_nil.
Qed.

(** X11: devices are aggregated in isolation: when two sets of readings
    share no device, aggregating them together gives the rows of aggregating
    each set alone, up to order. *)
Theorem devices_are_aggregated_in_isolation `{ArgSort} (itz : option tzinfo)
    (aggregation_level : positive) (ncols : nat) (readings1 readings2 : list Reading) :
  (∀ r1 r2, r1 ∈ readings1 → r2 ∈ readings2 → dev_id r1 ≠ dev_id r2) →
  aggregated_rows itz aggregation_level ncols (readings1 ++ readings2) ≡ₚ
  aggregated_rows itz aggregation_level ncols readings1 ++
  aggregated_rows itz aggregation_level ncols readings2.
Proof.
  intros Hdisj. rewrite !aggregated_rows_perm.
  rewrite fmap_app, unique_app_disjoint, fmap_app, concat_app.
  2:{ intros d (r1 & -> & Hr1)%list_elem_of_fmap (r2 & Heq & Hr2)%list_elem_of_fmap.
      by apply (Hdisj r1 r2). }
  assert (Hleft : ∀ d, d ∈ unique (dev_id <$> readings1) →
            aggregate_device itz aggregation_level ncols (readings1 ++ readings2) d =
            aggregate_device itz aggregation_level ncols readings1 d).
  { intros d Hd%unique_elem. apply list_elem_of_fmap in Hd as (r1 & -> & Hr1).
    unfold aggregate_device. rewrite filter_app.
    rewrite (filter_Forall_nil _ readings2), app_nil_r; [done|].
    intros r2 Hr2 Heq. by apply (Hdisj r1 r2). }
  assert (Hright : ∀ d, d ∈ unique (dev_id <$> readings2) →
            aggregate_device itz aggregation_level ncols (readings1 ++ readings2) d =
            aggregate_device itz aggregation_level ncols readings2 d).
  { intros d Hd%unique_elem. apply list_elem_of_fmap in Hd as (r2 & -> & Hr2).
    unfold aggregate_device. rewrite filter_app.
    rewrite (filter_Forall_nil _ readings1); [done|].
    intros r1 Hr1 Heq. by apply (Hdisj r1 r2). }
  assert (E1 : aggregate_device itz aggregation_level ncols (readings1 ++ readings2)
                 <$> unique (dev_id <$> readings1) =
               aggregate_device itz aggregation_level ncols readings1
                 <$> unique (dev_id <$> readings1))
    by (apply Forall_fmap_ext, Forall_forall; done).
  assert (E2 : aggregate_device itz aggregation_level ncols (readings1 ++ readings2)
                 <$> unique (dev_id <$> readings2) =
               aggregate_device itz aggregation_level ncols readings2
                 <$> unique (dev_id <$> readings2))
    by (apply Forall_fmap_ext, Forall_forall; done).
  by rewrite E1, E2.
Qed.

(** * Further properties of the registry and the window filter *)

Lemma dict_get_Some (d : dict) k v :
  NoDup d.*1 → dict_get k d = Some v ↔ (k, v) ∈ d.
Proof.
  induction d as [|[k' v'] d IH]; cbn.
  - intros _. split; [done|]. by intros ?%elem_of_nil.
  - intros [Hk Hnd]%NoDup_cons. destruct (decide (k = k')) as [->|Hne].
    + split; [intros [= ->]; left|].
      intros [[= ->]|Hin]%elem_of_cons; [done|].
      destruct Hk. apply list_elem_of_fmap. by exists (k', v).
    + rewrite (IH Hnd). split; [by right|].
      intros [[= -> ->]|Hin]%elem_of_cons; done.
Qed.

Lemma dict_get_perm (d d' : dict) k :
  NoDup d.*1 → d ≡ₚ d' → dict_get k d = dict_get k d'.
Proof.
  intros Hnd Hperm.
  assert (Hnd' : NoDup d'.*1) by (by rewrite <- Hperm).
  destruct (dict_get k d) as [v|] eqn:Hv.
  - symmetry. apply dict_get_Some; [done|]. rewrite <- Hperm.
    by apply dict_get_Some.
  - destruct (dict_get k d') as [v'|] eqn:Hv'; [|done].
    apply dict_get_Some in Hv'; [|done]. rewrite <- Hperm in Hv'.
    apply dict_get_Some in Hv'; [|done]. congruence.
Qed.

(** X12: the order in which the loop visits the cutoffs does not matter:
    two dictionaries with the same entries give the same rows, or fail
    alike. *)
Theorem window_filter_ignores_dictionary_order (itz : option tzinfo)
    (dates dates' : dict) (filtered_df : list Reading) :
  NoDup dates.*1 →
  dates ≡ₚ dates' →
  outcome (window_filter itz dates filtered_df) =
  outcome (window_filter itz dates' filtered_df).
Proof.
  intros Hnd Hperm.
  assert (Hnd' : NoDup dates'.*1) by (by rewrite <- Hperm).
  pose proof (window_filter_outcome_cases itz dates filtered_df Hnd) as H1.
  pose proof (window_filter_outcome_cases itz dates' filtered_df Hnd') as H2.
  assert (Hsame : filter (survives dates) filtered_df = filter (survives dates') filtered_df).
  { apply list_filter_iff. intros r. unfold survives.
    by rewrite (dict_get_perm dates dates' _ Hnd Hperm). }
  destruct (outcome (window_filter itz dates filtered_df)) as [e|kept],
           (outcome (window_filter itz dates' filtered_df)) as [e'|kept'].
  - destruct H1 as [-> _], H2 as [-> _]. done.
  - destruct H1 as [_ Hn], H2 as [_ Hall]. destruct Hn. by rewrite Hperm.
  - destruct H1 as [_ Hall], H2 as [_ Hn]. destruct Hn. by rewrite <- Hperm.
  - destruct H1 as [-> _], H2 as [-> _]. by rewrite Hsame.
Qed.

Section RegistryOrder.

Variable to_datetime : string → option Timestamp.

(** X13: when several metadata records carry the same id, the device's
    cutoff is the one stored by the last of them whose install date parses;
    later records of the device without such a date leave it in place. *)
Theorem last_dated_record_sets_the_cutoff (itz : option tzinfo) (rows : list Feature) :
  ∃ dates,
    outcome (parse_install_dates to_datetime itz rows) = inr dates ∧
    ∀ device,
      dict_get device dates =
      last (omap (λ row, if decide (id row = device)
                         then stored_cutoff to_datetime itz row else None) rows).
Proof.
  eexists. split; [apply registry_loop_outcome|]. intros device.
  induction rows as [|row rows IH] using rev_ind; [done|].
  rewrite foldl_app, omap_app. simpl. unfold dates_after at 1.
  destruct (stored_cutoff to_datetime itz row) as [c|] eqn:Hc.
  - destruct (decide (id row = device)) as [<-|Hne].
    + rewrite dict_get_set_eq. simpl. by rewrite last_snoc.
    + rewrite dict_get_set_ne by done. simpl. by rewrite app_nil_r.
  - case_decide; simpl; by rewrite app_nil_r.
Qed.

End RegistryOrder.

(** * Properties of the station pipeline *)

Lemma set_fmisid_keeps_label cols first_row b :
  b_time (set_fmisid cols first_row b) = b_time b ∧
  b_station (set_fmisid cols first_row b) = b_station b.
Proof. unfold set_fmisid. by destruct (list_find _ _) as [[i col]|]. Qed.

Lemma aggregate_station_elem df freq station b :
  b ∈ aggregate_station df freq station →
  b_station b = station ∧
  ∃ first_row rest p,
    filter (λ r, Station r = station) (s_rows df) = first_row :: rest ∧
    p ∈ resample_mean LabelLeft (s_index_tz df) freq (length (s_number_columns df))
          (numeric_part <$> first_row :: rest) ∧
    b_time b = p.1 ∧
    b = (if decide ("fmisid" ∈ s_columns df)
         then set_fmisid (s_number_columns df) first_row
                (mkStationBucket p.1 station None p.2)
         else mkStationBucket p.1 station None p.2).
Proof.
  unfold aggregate_station. rewrite list_elem_of_filter. intros [_ Hb].
  destruct (filter (λ r, Station r = station) (s_rows df)) as [|first_row rest].
  { exfalso. case_decide; by apply elem_of_nil in Hb. }
  case_decide.
  - apply list_elem_of_fmap in Hb as (b' & -> & Hb').
    apply list_elem_of_fmap in Hb' as (p & -> & Hp).
    destruct (set_fmisid_keeps_label (s_number_columns df) first_row
                (mkStationBucket p.1 station None p.2)) as [-> ->].
    split; [done|]. by exists first_row, rest, p.
  - apply list_elem_of_fmap in Hb as (p & -> & Hp).
    split; [done|]. by exists first_row, rest, p.
Qed.

Section StationRuns.

Context `{ArgSort}.

Lemma aggregate_stations_elem df freq aggregated b :
  outcome (aggregate_stations df freq) = inr aggregated →
  b ∈ aggregated →
  ∃ station, station ∈ Station <$> s_rows df ∧ b ∈ aggregate_station df freq station.
Proof.
  unfold aggregate_stations. cbv zeta.
  destruct (filter _ _) as [|p ps] eqn:Hparts.
  { intros [= <-] ?%elem_of_nil. done. }
  rewrite outcome_bind, outcome_print, outcome_ret.
  intros [= <-]. change (p ++ concat ps) with (concat (p :: ps)).
  rewrite sort_index_perm, <- Hparts.
  intros (part & Hb & Hpart)%elem_of_concat.
  apply list_elem_of_filter in Hpart as [_ Hpart].
  apply list_elem_of_fmap in Hpart as (station & -> & Hs).
  exists station. split; [by apply unique_elem|done].
Qed.

(** X14: the station pipeline keeps only readings of allow-listed stations
    from 2024-05-01 on, and every aggregated bucket belongs to an
    allow-listed station and is labelled less than one cadence before that
    date at the earliest. *)
Theorem station_run_keeps_allowed_stations_after_epoch (files : list StationFrame)
    (cadence : positive) (df : StationFrame) (df_agg : list StationBucket) :
  outcome (combine_fmi_data files cadence) = inr (df, df_agg) →
  (∀ r, r ∈ s_rows df →
     fmi_epoch (s_index_tz df) ≤ s_time r ∧ Station r ∈ stations_to_save) ∧
  (∀ b, b ∈ df_agg →
     b_station b ∈ stations_to_save ∧
     fmi_epoch (s_index_tz df) - Z.pos cadence < b_time b).
Proof.
  unfold combine_fmi_data. destruct files as [|schema files]; [done|].
  rewrite outcome_bind, outcome_print, outcome_bind.
  set (frame := mkStationFrame _ _ _ _).
  destruct (outcome (aggregate_stations frame cadence)) as [e|agg] eqn:Hagg; [done|].
  rewrite outcome_ret. intros [= <- <-].
  assert (Hrows : ∀ r, r ∈ s_rows frame →
            fmi_epoch (s_index_tz frame) ≤ s_time r ∧ Station r ∈ stations_to_save).
  { intros r. simpl. rewrite !list_elem_of_filter. tauto. }
  split; [exact Hrows|].
  intros b Hb.
  destruct (aggregate_stations_elem _ _ _ _ Hagg Hb) as (station & Hs & Hbs).
  apply aggregate_station_elem in Hbs
    as (Hst & first_row & rest & [t vals] & Hdata & Hp & Ht & _).
  assert (Hin : ∀ r, r ∈ first_row :: rest →
            fmi_epoch (s_index_tz frame) ≤ s_time r ∧ Station r = station ∧
            Station r ∈ stations_to_save).
  { intros r Hr. rewrite <- Hdata in Hr. apply list_elem_of_filter in Hr as [? Hr].
    destruct (Hrows r Hr). done. }
  split.
  - rewrite Hst. destruct (Hin first_row ltac:(left)) as (_ & <- & ?). done.
  - rewrite Ht. cbn [fst]. rewrite fmap_cons in Hp.
    apply elem_of_resample_mean in Hp as (i & [Hi _] & -> & _).
    set (first := list_min (time (numeric_part first_row))
                    (time <$> (numeric_part <$> rest))).
    assert (Hfirst : fmi_epoch (s_index_tz frame) ≤ first).
    { subst first.
      assert (Hall : ∀ t, t ∈ time (numeric_part first_row)
                              :: (time <$> (numeric_part <$> rest)) →
                fmi_epoch (s_index_tz frame) ≤ t).
      { intros t [->|Ht']%elem_of_cons.
        - apply (Hin first_row). left.
        - apply list_elem_of_fmap in Ht' as (r' & -> & Hr').
          apply list_elem_of_fmap in Hr' as (r & -> & Hr).
          apply (Hin r). by right. }
      revert Hall. generalize (time (numeric_part first_row)).
      generalize (time <$> (numeric_part <$> rest)).
      intros l. induction l as [|y l IH]; intros z Hall; simpl.
      - apply Hall. left.
      - apply Z.min_glb.
        + apply Hall. right. left.
        + apply IH. intros t [->|Ht']%elem_of_cons; apply Hall; [left|by right; right]. }
    unfold label_of, first_edge.
    pose proof (Z.mod_pos_bound (first - normalize (s_index_tz frame) first)
                  (Z.pos cadence) ltac:(lia)) as Hmod.
    set (m := (first - normalize (s_index_tz frame) first) `mod` Z.pos cadence) in *.
    nia.
Qed.

(** X15: when no reading passes the date and allow-list filters, the station
    pipeline does not fail as the device pipeline would: it returns the empty
    frame and an empty aggregated frame. *)
Theorem station_run_with_nothing_left (schema : StationFrame)
    (files : list StationFrame) (cadence : positive) :
  (∀ r, r ∈ concat (s_rows <$> schema :: files) →
     ¬ (fmi_epoch (s_index_tz schema) ≤ s_time r ∧ Station r ∈ stations_to_save)) →
  ∃ df, outcome (combine_fmi_data (schema :: files) cadence) = inr (df, []) ∧
        s_rows df = [].
Proof.
  intros Hnone. unfold combine_fmi_data.
  assert (Hempty : filter (λ r, Station r ∈ stations_to_save)
                     (filter (λ r, fmi_epoch (s_index_tz schema) ≤ s_time r)
                        (concat (s_rows <$> schema :: files))) = []).
  { rewrite list_filter_filter. apply filter_Forall_nil.
    intros r Hr [? ?]. by apply (Hnone r Hr). }
  rewrite Hempty. eexists. split; reflexivity.
Qed.

End StationRuns.

(** X16: every bucket of a station carries the [fmisid] of the station's
    first reading, whatever the later readings say: in the numeric column of
    that name when there is one, in the text column otherwise. *)
Theorem station_buckets_carry_first_fmisid (df : StationFrame) (cadence : positive)
    (station : string) (b : StationBucket) :
  "fmisid" ∈ s_columns df →
  b ∈ aggregate_station df cadence station →
  ∃ first_row rest,
    filter (λ r, Station r = station) (s_rows df) = first_row :: rest ∧
    match list_find (λ col, col = "fmisid") (s_number_columns df) with
    | Some (i, _) => b_cells b !! i = Some (mjoin (s_cells first_row !! i))
    | None => b_fmisid_text b = fmisid_text first_row
    end.
Proof.
  intros Hcol (_ & first_row & rest & [t vals] & Hdata & Hp & _ & ->)%aggregate_station_elem.
  exists first_row, rest. split; [done|].
  rewrite decide_True by done. unfold set_fmisid.
  destruct (list_find _ _) as [[i col]|] eqn:Hfind; [|done].
  simpl. apply list_lookup_insert_eq.
  apply list_find_Some in Hfind as (Hi%lookup_lt_Some & _).
  rewrite fmap_cons in Hp. apply elem_of_resample_mean in Hp as (k & _ & _ & ->).
  unfold bin_means. by rewrite length_fmap, length_seq.
Qed.

(** * Properties of the command line *)

Lemma string_length_app (s1 s2 : string) :
  String.length (s1 +:+ s2) = (String.length s1 + String.length s2)%nat.
Proof. induction s1 as [|a s1 IH]; simpl; [done|]. by rewrite IH. Qed.

(** X17: the name derived for the aggregated file is never the name of the
    file it is derived from, so the aggregated frame cannot replace the
    combined one. *)
Theorem aggregated_file_has_its_own_name (out : Path) (cadence : string) :
  fname_agg out cadence ≠ fname out.
Proof.
  unfold fname_agg, fname. intros Heq.
  apply (f_equal String.length) in Heq.
  rewrite !string_length_app in Heq. simpl in Heq. lia.
Qed.

Section MainRuns.

Variable to_datetime : string → option Timestamp.
Context `{ArgSort}.
Variable combine_geojson : list Path → Path → option GeoDataFrame.
Variable combine_parquet : list Path → Path → option DataFrame.
Variable read_parquet : Path → StationFrame.
Variable to_offset : string → positive.

(** X18: a command line that gives neither a complete GeoJSON pair nor a
    complete Parquet pair is refused before anything runs, also when it
    gives the FMI pair: the station pipeline cannot be run on its own. *)
Theorem station_pipeline_cannot_run_alone (argv : Namespace) :
  geojson_in argv = None ∨ geojson_out argv = None →
  parquet_in argv = None ∨ parquet_out argv = None →
  main to_datetime combine_geojson combine_parquet read_parquet to_offset argv = None.
Proof.
  intros Hg Hp.
  assert (Hgeo : list_given (geojson_in argv) && path_given (geojson_out argv) = false).
  { destruct Hg as [-> | ->]; [done|]. apply andb_false_r. }
  assert (Hpar : list_given (parquet_in argv) && path_given (parquet_out argv) = false).
  { destruct Hp as [-> | ->]; [done|]. apply andb_false_r. }
  unfold main, parse_args. by rewrite Hgeo, Hpar.
Qed.

(** X19: a call of [main] that comes to its end has run the device pipeline
    exactly when both the GeoJSON pair and the Parquet pair were given and
    both combiners returned a frame; its result is then the pipeline's
    result on those two frames, filed under the name derived from the
    Parquet output path. *)
Theorem main_runs_device_pipeline_on_both_pairs (argv : Namespace) (run : Run)
    (result : string * (list Reading * option Artifact)) :
  main to_datetime combine_geojson combine_parquet read_parquet to_offset argv
    = Some (inr run) →
  device_run run = Some result ↔
    ∃ gin gout pin pout gdf df,
      geojson_in argv = Some gin ∧ gin ≠ [] ∧ geojson_out argv = Some gout ∧
      parquet_in argv = Some pin ∧ pin ≠ [] ∧ parquet_out argv = Some pout ∧
      combine_geojson gin gout = Some gdf ∧
      combine_parquet pin pout = Some df ∧
      result.1 = fname_agg pout (aggregate argv) ∧
      outcome (save_aggregated_data to_datetime df gdf (to_offset (aggregate argv)))
        = inr result.2.
Proof.
  unfold main. destruct (parse_args argv) as [args|] eqn:Hargs; [|done].
  assert (args = argv) as ->.
  { unfold parse_args in Hargs. by destruct (negb _); simplify_eq. }
  clear Hargs. cbn -[combine_fmi_data save_aggregated_data outcome].
  destruct (geojson_in argv) as [[|g gs]|] eqn:Hgi;
    destruct (geojson_out argv) as [gout|] eqn:Hgo;
    destruct (parquet_in argv) as [[|p ps]|] eqn:Hpi;
    destruct (parquet_out argv) as [pout|] eqn:Hpo;
    destruct (fmi_in argv) as [[|f fs]|];
    destruct (fmi_out argv) as [fout|];
    try destruct (outcome (combine_fmi_data _ _)) as [e|r];
    try destruct (combine_geojson _ _) as [gdf|] eqn:Hgdf;
    try destruct (combine_parquet _ _) as [df|] eqn:Hdf;
    try destruct (outcome (save_aggregated_data _ _ _ _)) as [e'|r'] eqn:Hrun;
    intros Hmain; simplify_eq; cbn [device_run];
    (split;
     [ intros Hres; simplify_eq;
       try (eexists _, _, _, _, _, _; split_and!; (done || eassumption))
     | intros (gin & gout' & pin & pout' & gdf' & df' & ? & ? & ? & ? & ? & ? & ? & ? & ? & ?);
       destruct result; simpl in *; simplify_eq; first [done | congruence] ]).
Qed.

End MainRuns.

(** * Aggregating an aggregated frame again *)

Lemma filter_ext_in {A : Type} (P Q : A → Prop) `{∀ x, Decision (P x)}
    `{∀ x, Decision (Q x)} (l : list A) :
  (∀ x, x ∈ l → (P x ↔ Q x)) → filter P l = filter Q l.
Proof.
  induction l as [|x l IH]; intros Hext; [done|].
  rewrite !filter_cons. pose proof (Hext x ltac:(left)) as Hx.
  rewrite IH by (intros y Hy; apply Hext; by right).
  repeat case_decide; tauto.
Qed.

Lemma filter_time_single (l : list Reading) (r : Reading) :
  NoDup (time <$> l) → r ∈ l → filter (λ x, time x = time r) l = [r].
Proof.
  induction l as [|y l IH]; [by intros _ ?%elem_of_nil|].
  rewrite fmap_cons. intros [Hy Hnd]%NoDup_cons [->|Hr]%elem_of_cons.
  - rewrite filter_cons_True by done. f_equal.
    apply filter_Forall_nil. intros x Hx Heq. apply Hy.
    rewrite <- Heq. by apply list_elem_of_fmap_2.
  - rewrite filter_cons_False; [by apply IH|].
    intros Heq. apply Hy. rewrite Heq. by apply list_elem_of_fmap_2.
Qed.

(** The mean of a single value that is itself a mean is that value. *)
Lemma column_mean_of_mean j (r : Reading) (members : list Reading) :
  mjoin (cells r !! j) = column_mean j members →
  column_mean j [r] = column_mean j members.
Proof.
  intros Hcell. unfold column_mean at 1. simpl. rewrite Hcell.
  unfold column_mean.
  destruct (omap (λ x, mjoin (cells x !! j)) members) as [|q qs]; [done|].
  simpl. f_equal. apply Qred_complete.
  unfold Qdiv. change (/ inject_Z (Z.of_nat 1))%Q with 1%Q.
  rewrite Qmult_1_r, Qplus_0_r. apply Qred_correct.
Qed.

Lemma bin_means_of_means ncols (r : Reading) (members : list Reading) :
  cells r = bin_means ncols members → bin_means ncols [r] = cells r.
Proof.
  intros Hcells. rewrite Hcells. unfold bin_means.
  apply Forall_fmap_ext, Forall_forall. intros j Hj%elem_of_seq.
  apply column_mean_of_mean. rewrite Hcells. unfold bin_means.
  rewrite list_lookup_fmap, lookup_seq_lt by lia. done.
Qed.

Lemma on_grid_in_bin (c l t : Z) :
  0 < c → (c | l) → (c | t) → l ≤ t < l + c → t = l.
Proof. intros Hc [k ->] [m ->] Hin. f_equal. nia. Qed.

(** X20: aggregation is not idempotent.  When the cadence divides a day and
    the index's UTC offset, aggregating a device's aggregated rows once more
    at the same cadence gives the same rows with every label one cadence
    later: a row labelled [t] is a reading at [t], which the left-closed bins
    put in the bucket labelled [t + c]. *)
Theorem reaggregation_moves_labels_one_cadence_later (itz : option tzinfo)
    (aggregation_level : positive) (ncols : nat) (filtered_df : list Reading)
    (device_id : string) (again : Reading) :
  (Z.pos aggregation_level | NANOS_PER_DAY) →
  (Z.pos aggregation_level | default 0 itz) →
  again ∈ aggregate_device itz aggregation_level ncols
            (aggregate_device itz aggregation_level ncols filtered_df device_id)
            device_id ↔
  ∃ r, r ∈ aggregate_device itz aggregation_level ncols filtered_df device_id ∧
       again = mkReading (time r + Z.pos aggregation_level) device_id (cells r).
Proof.
  intros Hday Hoff.
  set (c := Z.pos aggregation_level) in *.
  set (out := aggregate_device itz aggregation_level ncols filtered_df device_id).
  assert (Hc : 0 < c) by (unfold c; lia).
  assert (Hsame : filter (λ r, dev_id r = device_id) out = out).
  { apply filter_Forall_id, Forall_forall. intros r. apply aggregate_device_dev_id. }
  assert (Hgrid : ∀ r, r ∈ out → (c | time r)).
  { intros r (b & Hb & -> & _)%aggregate_device_elem. destruct b as [t vals].
    by eapply resample_labels_on_grid. }
  assert (Hmeans : ∀ r, r ∈ out → bin_means ncols [r] = cells r ∧ ¬ all_null (cells r)).
  { intros r (b & Hb & -> & Hnn)%aggregate_device_elem. destruct b as [t vals].
    simpl in *. split; [|done]. eapply (bin_means_of_means ncols). simpl.
    by eapply resample_right_content. }
  assert (Hbin : ∀ r l, r ∈ out → (c | l) → l ≤ time r < l + c →
            bin_rows l (l + c) out = [r]).
  { intros r l Hr Hl Hin. pose proof (on_grid_in_bin c l (time r) Hc Hl (Hgrid r Hr) Hin) as Ht.
    unfold bin_rows. rewrite <- (filter_time_single out r);
      [|apply aggregate_device_times_NoDup|done].
    apply filter_ext_in. intros x Hx. split; [|lia].
    intros Hxin. rewrite Ht. apply (on_grid_in_bin c l (time x) Hc Hl (Hgrid x Hx) Hxin). }
  rewrite aggregate_device_elem, Hsame. split.
  - intros ([t vals] & Hb & -> & Hnn). simpl in Hnn.
    pose proof (resample_right_content _ _ _ _ _ _ Hb) as Hvals. fold c in Hvals.
    rewrite Hvals in Hnn.
    apply some_mean_nonnull in Hnn as (r & _ & _ & Hr & _).
    apply list_elem_of_filter in Hr as [Hin Hr].
    assert (Hl : (c | t - c)).
    { destruct (resample_labels_on_grid _ _ _ _ _ _ _ Hday Hoff Hb) as [k Hk].
      exists (k - 1). fold c in Hk. lia. }
    pose proof (Hbin r (t - c) Hr Hl ltac:(lia)) as Hone.
    replace (t - c + c) with t in Hone by lia.
    pose proof (on_grid_in_bin c (t - c) (time r) Hc Hl (Hgrid r Hr) ltac:(lia)) as Ht.
    exists r. split; [done|]. simpl. rewrite Hvals, Hone.
    destruct (Hmeans r Hr) as [-> _]. f_equal. lia.
  - intros (r & Hr & ->).
    destruct (resample_covers itz aggregation_level LabelRight ncols out r Hr)
      as (l & Hl & Hin). fold c in Hl, Hin. simpl in Hl.
    assert (Hlc : (c | l)).
    { destruct (resample_labels_on_grid _ _ _ _ _ _ _ Hday Hoff Hl) as [k Hk].
      exists (k - 1). fold c in Hk. lia. }
    pose proof (on_grid_in_bin c l (time r) Hc Hlc (Hgrid r Hr) Hin) as Ht.
    rewrite (Hbin r l Hr Hlc Hin) in Hl. destruct (Hmeans r Hr) as [Hm Hnn].
    rewrite Hm in Hl. eexists. split_and!; [exact Hl| |done].
    simpl. by rewrite Ht.
Qed.

(** * Worked inputs for the further properties *)

Lemma unknown_devices_do_not_matter_witness :
  outcome (save_aggregated_data sample_to_datetime
             (known_only three_devices_raw one_device) one_device one_hour) =
  outcome (save_aggregated_data sample_to_datetime three_devices_raw one_device one_hour).
Proof.
  apply (unknown_devices_do_not_matter sample_to_datetime three_devices_raw
           one_device one_hour).
  vm_compute. discriminate.
Defined.

Lemma all_rows_before_cutoff_witness :
  outcome (save_aggregated_data sample_to_datetime early_raw one_device one_hour)
    = inr ([], None).
Proof.
  apply (all_rows_before_cutoff_gives_empty_result sample_to_datetime early_raw
           one_device one_hour).
  - apply (bool_decide_unpack _). vm_compute. exact I.
  - apply (bool_decide_unpack _). vm_compute. exact I.
  - vm_compute. eauto.
  - vm_compute. discriminate.
  - apply Forall_forall. apply (bool_decide_unpack _). vm_compute. exact I.
Defined.

Lemma buckets_come_after_the_cutoff_witness :
  match dict_get (dev_id x1_bucket)
          (parsed_dates sample_to_datetime three_devices_raw one_device) with
  | None => True
  | Some NaT => False
  | Some (Stamp cutoff _) => cutoff < time x1_bucket
  end.
Proof.
  apply (buckets_come_after_the_cutoff sample_to_datetime three_devices_raw
           one_device one_hour [x1_bucket]
           (Some (mkArtifact ["X1"]
                    [(new_year_2024 + 3 * NANOS_PER_DAY + NANOS_PER_HOUR,
                      Some "X1", [Some 15%Q])]))).
  - vm_compute. discriminate.
  - vm_compute. reflexivity.
  - left.
Defined.

Lemma without_numeric_columns_witness :
  [ mkReading (new_year_2024 + 3 * NANOS_PER_DAY + 600000000000) "X1" [] ] =
  filter (λ r, dev_id r ∈ id <$> features one_device ∧
               survives (parsed_dates sample_to_datetime ids_only_raw one_device) r)
    (rows ids_only_raw).
Proof.
  apply (without_numeric_columns_rows_pass_through sample_to_datetime ids_only_raw
           one_device one_hour _
           (Some (mkArtifact ["X1"]
                    [(new_year_2024 + 3 * NANOS_PER_DAY + 600000000000,
                      Some "X1", [])]))).
  - reflexivity.
  - vm_compute. reflexivity.
Defined.

Lemma device_buckets_strictly_increase_witness :
  new_year_2024 + NANOS_PER_HOUR < new_year_2024 + 4 * NANOS_PER_HOUR ∧
  (Z.pos one_hour | new_year_2024 + 4 * NANOS_PER_HOUR - (new_year_2024 + NANOS_PER_HOUR)).
Proof.
  apply (device_buckets_strictly_increase (Some UTC) one_hour 1 three_hours_apart "X1"
           0 1
           (mkReading (new_year_2024 + NANOS_PER_HOUR) "X1" [Some 10%Q])
           (mkReading (new_year_2024 + 4 * NANOS_PER_HOUR) "X1" [Some 20%Q])).
  - vm_compute. reflexivity.
  - vm_compute. reflexivity.
  - lia.
Defined.

Lemma bucket_labels_on_the_cadence_grid_witness :
  (Z.pos one_hour | new_year_2024 + 4 * NANOS_PER_HOUR).
Proof.
  apply (bucket_labels_on_the_cadence_grid (Some UTC) one_hour 1 three_hours_apart "X1"
           (mkReading (new_year_2024 + 4 * NANOS_PER_HOUR) "X1" [Some 20%Q])).
  - exists 24. reflexivity.
  - exists 0. reflexivity.
  - vm_compute. right. left.
Defined.

Lemma devices_are_aggregated_in_isolation_witness :
  aggregated_rows (Some UTC) one_hour 1 (take 1 b_before_a ++ drop 1 b_before_a) ≡ₚ
  aggregated_rows (Some UTC) one_hour 1 (take 1 b_before_a) ++
  aggregated_rows (Some UTC) one_hour 1 (drop 1 b_before_a).
Proof.
  apply (devices_are_aggregated_in_isolation (Some UTC) one_hour 1
           (take 1 b_before_a) (drop 1 b_before_a)).
  intros r1 r2 Hr1 Hr2.
  apply list_elem_of_singleton in Hr1 as ->. apply list_elem_of_singleton in Hr2 as ->.
  vm_compute. discriminate.
Defined.

Lemma window_filter_ignores_dictionary_order_witness :
  outcome (window_filter (Some UTC) two_cutoffs (rows three_devices_raw)) =
  outcome (window_filter (Some UTC) (reverse two_cutoffs) (rows three_devices_raw)).
Proof.
  apply (window_filter_ignores_dictionary_order (Some UTC) two_cutoffs
           (reverse two_cutoffs) (rows three_devices_raw)).
  - apply (bool_decide_unpack _). vm_compute. exact I.
  - symmetry. apply reverse_Permutation.
Defined.

Lemma station_run_keeps_allowed_stations_witness :
  (∀ r, r ∈ take 2 (s_rows kumpula_half_hours) →
     fmi_epoch (Some UTC) ≤ s_time r ∧ Station r ∈ stations_to_save) ∧
  (∀ b, b ∈ [ mkStationBucket may_day_2024 "Helsinki Kumpula" None [Some 15%Q] ] →
     b_station b ∈ stations_to_save ∧
     fmi_epoch (Some UTC) - Z.pos one_hour < b_time b).
Proof.
  apply (station_run_keeps_allowed_stations_after_epoch [kumpula_half_hours] one_hour
           (mkStationFrame (Some UTC) ["Station"; "Air temperature"] ["Air temperature"]
              (take 2 (s_rows kumpula_half_hours)))
           [ mkStationBucket may_day_2024 "Helsinki Kumpula" None [Some 15%Q] ]).
  vm_compute. reflexivity.
Defined.

Lemma station_run_with_nothing_left_witness :
  ∃ df, outcome (combine_fmi_data [turku_only] one_hour) = inr (df, []) ∧ s_rows df = [].
Proof.
  apply (station_run_with_nothing_left turku_only [] one_hour).
  apply Forall_forall. apply (bool_decide_unpack _). vm_compute. exact I.
Defined.

Lemma station_buckets_carry_first_fmisid_witness :
  ∃ first_row rest,
    filter (λ r, Station r = "Helsinki Kumpula") (s_rows kumpula_with_gap)
      = first_row :: rest ∧
    match list_find (λ col, col = "fmisid") (s_number_columns kumpula_with_gap) with
    | Some (i, _) =>
        b_cells (mkStationBucket (may_day_2024 + NANOS_PER_HOUR) "Helsinki Kumpula" None
                   [Some 101004%Q; None]) !! i
          = Some (mjoin (s_cells first_row !! i))
    | None =>
        b_fmisid_text (mkStationBucket (may_day_2024 + NANOS_PER_HOUR)
                         "Helsinki Kumpula" None [Some 101004%Q; None])
          = fmisid_text first_row
    end.
Proof.
  apply (station_buckets_carry_first_fmisid kumpula_with_gap one_hour).
  - apply (bool_decide_unpack _). vm_compute. exact I.
  - vm_compute. right. left.
Defined.

Lemma station_pipeline_cannot_run_alone_witness :
  main sample_to_datetime (λ _ _, Some one_device) (λ _ _, Some three_devices_raw)
    (λ _, kumpula_half_hours) (λ _, one_hour) fmi_paths_only = None.
Proof.
  apply (station_pipeline_cannot_run_alone sample_to_datetime
           (λ _ _, Some one_device) (λ _ _, Some three_devices_raw)
           (λ _, kumpula_half_hours) (λ _, one_hour) fmi_paths_only);
    left; reflexivity.
Defined.

Lemma main_runs_device_pipeline_witness :
  device_run
    (mkRun None
       (Some ("data/interim/data_1h.parquet",
              ([x1_bucket],
               Some (mkArtifact ["X1"]
                       [(new_year_2024 + 3 * NANOS_PER_DAY + NANOS_PER_HOUR,
                         Some "X1", [Some 15%Q])])))))
    = Some ("data/interim/data_1h.parquet",
            ([x1_bucket],
             Some (mkArtifact ["X1"]
                     [(new_year_2024 + 3 * NANOS_PER_DAY + NANOS_PER_HOUR,
                       Some "X1", [Some 15%Q])]))) ↔
  ∃ gin gout pin pout gdf df,
    geojson_in data_paths = Some gin ∧ gin ≠ [] ∧ geojson_out data_paths = Some gout ∧
    parquet_in data_paths = Some pin ∧ pin ≠ [] ∧ parquet_out data_paths = Some pout ∧
    (λ _ _, Some one_device) gin gout = Some gdf ∧
    (λ _ _, Some three_devices_raw) pin pout = Some df ∧
    "data/interim/data_1h.parquet" = fname_agg pout (aggregate data_paths) ∧
    outcome (save_aggregated_data sample_to_datetime df gdf
               ((λ _, one_hour) (aggregate data_paths)))
      = inr ([x1_bucket],
             Some (mkArtifact ["X1"]
                     [(new_year_2024 + 3 * NANOS_PER_DAY + NANOS_PER_HOUR,
                       Some "X1", [Some 15%Q])])).
Proof.
  apply (main_runs_device_pipeline_on_both_pairs sample_to_datetime
           (λ _ _, Some one_device) (λ _ _, Some three_devices_raw)
           (λ _, kumpula_half_hours) (λ _, one_hour) data_paths).
  vm_compute. reflexivity.
Defined.

Lemma reaggregation_moves_labels_witness :
  mkReading (new_year_2024 + 2 * NANOS_PER_HOUR) "X1" [Some 10%Q]
    ∈ aggregate_device (Some UTC) one_hour 1
        (aggregate_device (Some UTC) one_hour 1 three_hours_apart "X1") "X1" ↔
  ∃ r, r ∈ aggregate_device (Some UTC) one_hour 1 three_hours_apart "X1" ∧
       mkReading (new_year_2024 + 2 * NANOS_PER_HOUR) "X1" [Some 10%Q] =
       mkReading (time r + Z.pos one_hour) "X1" (cells r).
Proof.
  apply (reaggregation_moves_labels_one_cadence_later (Some UTC) one_hour 1
           three_hours_apart "X1").
  - exists 24. reflexivity.
  - exists 0. reflexivity.
Defined.

Lemma device_bucket_emitted_witness :
  mkReading (new_year_2024 + 14 * NANOS_PER_HOUR) "X1" [Some 10%Q]
    ∈ aggregate_device (Some UTC) one_hour 1 on_the_hour "X1" ↔
  ∃ r j v,
    r ∈ bin_rows (new_year_2024 + 14 * NANOS_PER_HOUR - Z.pos one_hour)
          (new_year_2024 + 14 * NANOS_PER_HOUR)
          (filter (λ r, dev_id r = "X1") on_the_hour) ∧
    (j < 1)%nat ∧ cells r !! j = Some (Some v).
Proof.
  apply (device_bucket_emitted_iff (Some UTC) one_hour 1 on_the_hour "X1").
  vm_compute. left.
Defined.

Lemma station_bucket_is_left_labelled_witness :
  b_station (mkStationBucket may_day_2024 "Helsinki Kumpula" None [Some 15%Q])
    = "Helsinki Kumpula" ∧
  b_cells (mkStationBucket may_day_2024 "Helsinki Kumpula" None [Some 15%Q]) =
    bin_means (length (s_number_columns kumpula_half_hours))
      (bin_rows (b_time (mkStationBucket may_day_2024 "Helsinki Kumpula" None [Some 15%Q]))
         (b_time (mkStationBucket may_day_2024 "Helsinki Kumpula" None [Some 15%Q])
          + Z.pos one_hour)
         (numeric_part <$> filter (λ r, Station r = "Helsinki Kumpula")
                             (s_rows kumpula_half_hours))).
Proof.
  apply (station_bucket_is_left_labelled kumpula_half_hours one_hour "Helsinki Kumpula").
  - apply (bool_decide_unpack _). vm_compute. exact I.
  - vm_compute. left.
Defined.

Lemma nat_cutoff_drops_the_device_witness :
  outcome (window_filter (Some UTC) (dict_set (id installed_blank) NaT [])
             (rows three_devices_raw)) =
    inr (filter (λ r, dev_id r ≠ id installed_blank) (rows three_devices_raw)).
Proof.
  exact (proj2 (proj2 (nat_cutoff_drops_the_device sample_to_datetime (Some UTC) []
                         installed_blank "" (rows three_devices_raw)
                         eq_refl eq_refl NoDup_nil_2))
           (rows three_devices_raw) eq_refl).
Defined.

Lemma rows_without_known_device_witness :
  outcome (save_aggregated_data sample_to_datetime half_hours_raw only_z1 one_hour) =
    inl ValueError.
Proof.
  apply (rows_without_known_device_raise_ValueError sample_to_datetime
           half_hours_raw only_z1 one_hour).
  - apply (bool_decide_unpack _). vm_compute. exact I.
  - apply (bool_decide_unpack _). vm_compute. exact I.
  - discriminate.
  - intros r Hr Hin. vm_compute in Hin.
    apply list_elem_of_singleton in Hin.
    repeat (apply elem_of_cons in Hr as [->|Hr]; [discriminate Hin|]).
    by apply elem_of_nil in Hr.
Defined.
